(** * PyLaia, [egs/washington/steps/train_ctc.py]

    A shallow embedding of the training driver: the checkpoint hook
    [SaveModelCheckpointHook], the checkpoint loading done at startup, the
    configuration of the early-stop triggers and the final save, together
    with the properties the specification states about them.

    Conventions.
    - A Python [float] is an IEEE binary64 number, here a [spec_float] of
      the Standard Library with [prec = 53] and [emax = 1024]; comparisons
      are [SFltb] and [SFleb], so infinities and NaN behave as in Python.
    - Python objects that travel through [torch.save] and [torch.load] are
      [pyobj]: tensors and dictionaries with string keys.
    - The mutable environment (meters, the file system, the log) is a
      [world]; effectful code runs in the state-and-exception monad [M].
    - [torch] and [os.path] are external libraries: their operations are
      the fields of the classes [Torch] and [OsPath].
    - I/O failures of the operating system (disk full, permissions) are
      outside the model. *)

From Stdlib Require Import ZArith QArith Qreals Reals Lia Lra List Bool.
From Stdlib Require Import Floats.SpecFloat.
From stdpp Require Import gmap strings list fin_maps.

Local Open Scope string_scope.
Local Open Scope list_scope.

(* ================================================================== *)
(** * Part I: the embedding *)
(* ================================================================== *)

(** ** Python floats *)

Module PyFloat.

Definition prec : Z := 53.
Definition emax : Z := 1024.

(** [float('inf')] *)
Definition inf : spec_float := S754_infinity false.

(** [a < b] and [a <= b] on floats. *)
Definition lt (a b : spec_float) : bool := SFltb a b.
Definition le (a b : spec_float) : bool := SFleb a b.

Definition is_nan (f : spec_float) : bool :=
  match f with S754_nan => true | _ => false end.

(** [bool(f)]: a float is falsy exactly when it is a zero. *)
Definition truthy (f : spec_float) : bool :=
  match f with S754_zero _ => false | _ => true end.

(** The float nearest to an integer, and true division [a / b]. *)
Definition of_Z (n : Z) : spec_float :=
  match n with
  | Z0 => S754_zero false
  | Zpos p => binary_normalize prec emax (Zpos p) 0 false
  | Zneg p => SFopp (binary_normalize prec emax (Zpos p) 0 false)
  end.
Definition div (a b : spec_float) : spec_float := SFdiv prec emax a b.

(** The float a decimal literal [n / 10^k] denotes, e.g. [0.045] is
    [dec 45 3]: numerator and denominator are exact floats for the
    literals used here, and the division rounds once, to nearest. *)
Definition dec (n : Z) (k : nat) : spec_float :=
  div (of_Z n) (of_Z (10 ^ Z.of_nat k)).

(** The rational a finite float denotes. *)
Definition to_Q (f : spec_float) : option Q :=
  match f with
  | S754_zero _ => Some 0%Q
  | S754_finite s m e =>
      let mag := match e with
                 | Z0 => inject_Z (Zpos m)
                 | Zpos p => inject_Z (Zpos m * Z.pow_pos 2 p)
                 | Zneg p => (Zpos m # Pos.pow 2 p)%Q
                 end in
      Some (if s then Qopp mag else mag)
  | _ => None
  end.

End PyFloat.

(** ** Python objects, exceptions and the world *)

(** What [torch.save] serialises here: tensors (their entries) and
    dictionaries with string keys ([state_dict]s, the checkpoint record). *)
#[local] Unset Elimination Schemes.
Inductive pyobj : Type :=
  | PTensor (data : list spec_float)
  | PDict (items : gmap string pyobj).
#[local] Set Elimination Schemes.

Inductive exn : Type :=
  | AssertionError
  | IOError
  | TypeError
  | KeyError
  | RuntimeError
  | ValueError.

(** A meter object is known by its identity; its current value lives in
    the world, where the engine updates it and hooks and triggers read it. *)
Definition meter_ref := nat.

Inductive event : Type :=
  | EvReadMeter (m : meter_ref)
  | EvLogLowest (lowest : spec_float)
  | EvLogLoading (path : string)
  | EvMakedirs (dir : string)
  | EvSave (path : string) (obj : pyobj)
  | EvLoad (path : string).

Record world : Type := mkWorld {
  meters : meter_ref -> spec_float;
  files : gmap string pyobj;
  dirs : gset string;
  trace : list event
}.

Definition set_meter (m : meter_ref) (v : spec_float) (w : world) : world :=
  mkWorld (fun m' => if Nat.eqb m' m then v else meters w m')
          (files w) (dirs w) (trace w).

Definition emit (e : event) (w : world) : world :=
  mkWorld (meters w) (files w) (dirs w) (trace w ++ [e]).

(** ** The state-and-exception monad *)

Definition M (A : Type) : Type := world -> (exn + A) * world.

Definition ret {A} (a : A) : M A := fun w => (inr a, w).
Definition raise {A} (e : exn) : M A := fun w => (inl e, w).
Definition bind {A B} (m : M A) (k : A -> M B) : M B :=
  fun w => match m w with
           | (inr a, w') => k a w'
           | (inl e, w') => (inl e, w')
           end.
Definition lift {A} (r : exn + A) : M A := fun w => (r, w).

Notation "x <- m ;; k" := (bind m (fun x => k))
  (at level 63, m at level 62, right associativity).
Notation "m ;;; k" := (bind m (fun _ => k))
  (at level 63, right associativity).

(** [meter.value] *)
Definition read_meter (m : meter_ref) : M spec_float :=
  fun w => (inr (meters w m), emit (EvReadMeter m) w).

(** [logger.info('New lowest validation CER: {:5.1%}', v)] *)
Definition log_lowest (v : spec_float) : M unit :=
  fun w => (inr tt, emit (EvLogLowest v) w).

(** [logger.info('Loading parameters from {!r}', path)] *)
Definition log_loading (path : string) : M unit :=
  fun w => (inr tt, emit (EvLogLoading path) w).

(** [torch.save(obj, path)]: the file at [path] now holds [obj],
    whatever it held before. *)
Definition torch_save (obj : pyobj) (path : string) : M unit :=
  fun w => (inr tt,
            mkWorld (meters w) (<[path := obj]> (files w)) (dirs w)
                    (trace w ++ [EvSave path obj])).

(** [torch.load(path)] *)
Definition torch_load (path : string) : M pyobj :=
  fun w => match files w !! path with
           | Some obj => (inr obj, emit (EvLoad path) w)
           | None => (inl IOError, w)
           end.

(** [os.path.exists(p)] *)
Definition path_exists (p : string) (w : world) : bool :=
  bool_decide (p ∈ dirs w) || bool_decide (is_Some (files w !! p)).

(** [os.makedirs(d)], when the operating system carries it out. *)
Definition makedirs (d : string) : M unit :=
  fun w => (inr tt,
            mkWorld (meters w) (files w) ({[d]} ∪ dirs w)
                    (trace w ++ [EvMakedirs d])).

(** [bool(s)] for a string. *)
Definition str_truthy (s : string) : bool :=
  match s with EmptyString => false | _ => true end.

(** [key in obj] and [obj[key]]. *)
Definition py_in (key : string) (obj : pyobj) : exn + bool :=
  match obj with
  | PDict items => inr (bool_decide (is_Some (items !! key)))
  | PTensor _ => inl TypeError
  end.

Definition py_getitem (obj : pyobj) (key : string) : exn + pyobj :=
  match obj with
  | PDict items => match items !! key with
                   | Some v => inr v
                   | None => inl KeyError
                   end
  | PTensor _ => inl TypeError
  end.

(** ** Notions the properties are stated with *)

(** The checkpoint writes recorded in a trace, oldest first. *)
Fixpoint saves (tr : list event) : list (string * pyobj) :=
  match tr with
  | [] => []
  | EvSave path obj :: rest => (path, obj) :: saves rest
  | _ :: rest => saves rest
  end.

(** The values logged in a trace. *)
Fixpoint logged (tr : list event) : list spec_float :=
  match tr with
  | [] => []
  | EvLogLowest v :: rest => v :: logged rest
  | _ :: rest => logged rest
  end.

(** An invocation that took the world from [w] to [w'] wrote a
    checkpoint. *)
Definition written (w w' : world) : Prop :=
  saves (trace w') <> saves (trace w).

(** [m] is the minimum of the values [vs]: one of them, and at or below
    each. *)
Definition is_minimum (m : spec_float) (vs : list spec_float) : Prop :=
  In m vs /\ Forall (fun v => PyFloat.le m v = true) vs.

(** The lowest value of a record that starts at [+inf] and is taken over
    by each strictly lower value in turn. *)
Definition lower (acc v : spec_float) : spec_float :=
  if PyFloat.lt v acc then v else acc.

Definition running_min (vs : list spec_float) : spec_float :=
  fold_left lower vs PyFloat.inf.

(** [rec] is a dictionary whose entry ['model'] is [m], whose entry
    ['optimizer'] is [o], and which has no other key. *)
Definition holds_states (rec m o : pyobj) : Prop :=
  py_getitem rec "model" = inr m /\
  py_getitem rec "optimizer" = inr o /\
  forall key, key <> "model" -> key <> "optimizer" ->
              py_in key rec = inr false.

(** ** External libraries *)

Class OsPath : Type := {
  normpath : string -> string;
  dirname : string -> string
}.

Class Torch : Type := {
  module : Type;
  optimizer : Type;
  (** [model.state_dict()] and [model.load_state_dict(d)] *)
  state_dict : module -> pyobj;
  load_state_dict : module -> pyobj -> exn + module;
  (** [optimizer.state_dict()] and [optimizer.load_state_dict(d)] *)
  optim_state_dict : optimizer -> pyobj;
  optim_load_state_dict : optimizer -> pyobj -> exn + optimizer
}.

(** What the round trip relies on: a [load_state_dict] that returns has
    installed the state it was given. *)
Class TorchLaws (T : Torch) : Prop := {
  load_state_dict_installs :
    forall m d m', load_state_dict m d = inr m' -> state_dict m' = d;
  optim_load_state_dict_installs :
    forall o d o', optim_load_state_dict o d = inr o' -> optim_state_dict o' = d
}.

(** ** The checkpoint hook *)

Section Hook.
Context {OS : OsPath} {T : Torch}.

(** The objects a hook may be called with: a [laia.engine.Trainer],
    with its live model and optimizer, or anything else. *)
Record Trainer : Type := mkTrainer {
  model : module;
  optimizer_of : optimizer
}.

Inductive caller : Type :=
  | CTrainer (t : Trainer)
  | CEvaluator
  | COther (o : pyobj).

Record SaveModelCheckpointHook : Type := mkHook {
  _meter : meter_ref;
  _lowest : spec_float;
  _filename : string
}.

Definition __init__ (meter : meter_ref) (filename : string)
  : M SaveModelCheckpointHook :=
  let self := mkHook meter PyFloat.inf (normpath filename) in
  let dir := dirname (_filename self) in
  fun w =>
    if str_truthy dir && negb (path_exists dir w)
    then (makedirs dir ;;; ret self) w
    else ret self w.

(** The record handed to [torch.save]. *)
Definition checkpoint_record (model_state_dict optimizer_state_dict : pyobj)
  : pyobj :=
  PDict (<["model" := model_state_dict]>
         (<["optimizer" := optimizer_state_dict]> ∅)).

Definition _save (self : SaveModelCheckpointHook)
    (model_state_dict optimizer_state_dict : pyobj) : M unit :=
  torch_save (checkpoint_record model_state_dict optimizer_state_dict)
             (_filename self).

Definition __call__ (self : SaveModelCheckpointHook) (c : caller)
  : M SaveModelCheckpointHook :=
  match c with
  | CTrainer t =>
      v <- read_meter (_meter self) ;;
      if PyFloat.lt v (_lowest self) then
        v' <- read_meter (_meter self) ;;
        let self' := mkHook (_meter self) v' (_filename self) in
        log_lowest (_lowest self') ;;;
        _save self' (state_dict (model t))
                    (optim_state_dict (optimizer_of t)) ;;;
        ret self'
      else ret self
  | _ => raise AssertionError
  end.

(** What the world looks like after a call that saved. *)
Definition saved_world (self : SaveModelCheckpointHook) (t : Trainer)
    (w : world) : world :=
  let m := _meter self in
  let rec := checkpoint_record (state_dict (model t))
                               (optim_state_dict (optimizer_of t)) in
  mkWorld (meters w) (<[_filename self := rec]> (files w)) (dirs w)
          (trace w ++ [EvReadMeter m; EvReadMeter m;
                       EvLogLowest (meters w m);
                       EvSave (_filename self) rec]).

(** One epoch end as the hook sees it: the engine has set the meter to
    the epoch's value, then calls the hook. *)
Definition observe (self : SaveModelCheckpointHook)
    (c : caller) (v : spec_float) : M SaveModelCheckpointHook :=
  fun w => __call__ self c (set_meter (_meter self) v w).

(** The hook called at the end of each of a sequence of epochs. *)
Fixpoint observe_all (self : SaveModelCheckpointHook)
    (epochs : list (Trainer * spec_float)) : M SaveModelCheckpointHook :=
  match epochs with
  | [] => ret self
  | (t, v) :: rest =>
      self' <- observe self (CTrainer t) v ;;
      observe_all self' rest
  end.

(** A hook built for [filename], called at the end of [epochs] and
    then once more in [w_now]: the last call writes exactly when the
    meter's value is strictly below every value seen before. *)
Definition written_iff_below_all_seen
    (meter : meter_ref) (filename : string) (w_init : world)
    (epochs : list (Trainer * spec_float)) (t : Trainer) (w_now : world)
  : Prop :=
  forall h0 w0 h w h' w',
    __init__ meter filename w_init = (inr h0, w0) ->
    observe_all h0 epochs w0 = (inr h, w) ->
    __call__ h (CTrainer t) w_now = (inr h', w') ->
    (written w_now w' <->
     Forall (fun p => PyFloat.lt (meters w_now meter) p = true)
            (map snd epochs)).

End Hook.

(** ** Early-stop triggers *)

Module Triggers.

(** Modelled from the spec: [laia.engine.triggers] ([NumEpochs],
    [MeterStandardDeviation], [Any]) is imported by the script and is not
    among the sources at hand.  The model follows the specification's
    component design: the three variant kinds behind one evaluation, an
    epoch-count trigger that reads the trainer's completed-epoch counter,
    a metric-stability trigger with a FIFO window of bounded length, and
    the composite over a list of members. *)
#[local] Unset Elimination Schemes.
Inductive trigger : Type :=
  | NumEpochs (num_epochs : Z)
  | MeterStandardDeviation (meter : meter_ref) (threshold : spec_float)
      (num_values_to_keep : Z) (values : list spec_float)
  | Any (triggers : list trigger).
#[local] Set Elimination Schemes.

(** The last [n] elements of a list. *)
Definition lastn {A} (n : nat) (l : list A) : list A :=
  skipn (length l - n) l.

(** Modelled from the spec: the window is a FIFO of bounded length [W];
    a new value enters at the back and the oldest leaves once more than
    [W] are held. *)
Definition push (W : Z) (v : spec_float) (window : list spec_float)
  : list spec_float :=
  lastn (Z.to_nat W) (window ++ [v]).

(** Modelled from the spec: the window is full once it holds [W]
    values. *)
Definition window_full (W : Z) (window : list spec_float) : bool :=
  (W <=? Z.of_nat (length window))%Z.

Definition Qsum (l : list Q) : Q := fold_right Qplus 0%Q l.

Definition mean (l : list Q) : Q :=
  (Qsum l / inject_Z (Z.of_nat (length l)))%Q.

(** Modelled from the spec: the sample variance, with divisor [n - 1];
    it is undefined for fewer than two values. *)
Definition sample_variance (l : list Q) : option Q :=
  if (length l <? 2)%nat then None
  else Some (Qsum (map (fun x => (x - mean l) * (x - mean l)) l)
             / inject_Z (Z.of_nat (length l) - 1))%Q.

(** The rationals a window of finite floats denotes. *)
Fixpoint to_Qs (l : list spec_float) : option (list Q) :=
  match l with
  | [] => Some []
  | f :: rest =>
      match PyFloat.to_Q f, to_Qs rest with
      | Some q, Some qs => Some (q :: qs)
      | _, _ => None
      end
  end.

(** Modelled from the spec: whether the sample standard deviation of
    the window is at or below the threshold.  The standard deviation is
    the real number the window's values give; it compares with a finite
    threshold [T] as [0 <= T] and [variance <= T * T], lies below
    [+inf], and is not a number when the window holds an infinity or a
    NaN or fewer than two values. *)
Definition std_at_most (window : list spec_float) (T : spec_float) : bool :=
  match to_Qs window with
  | Some qs =>
      match sample_variance qs with
      | Some var =>
          match T with
          | S754_infinity false => true
          | _ => match PyFloat.to_Q T with
                 | Some t => Qle_bool 0 t && Qle_bool var (t * t)
                 | None => false
                 end
          end
      | None => false
      end
  | None => false
  end.

(** Modelled from the spec: one evaluation of a trigger at an epoch
    boundary, given the trainer's completed-epoch counter and the current
    values of the meters.  It returns the trigger with its state updated
    and whether it fires. *)
Fixpoint eval (epochs : Z) (ms : meter_ref -> spec_float) (t : trigger)
  : trigger * bool :=
  match t with
  | NumEpochs n => (t, (n <=? epochs)%Z)
  | MeterStandardDeviation m T W window =>
      let window' := push W (ms m) window in
      (MeterStandardDeviation m T W window',
       window_full W window' && std_at_most window' T)
  | Any ts =>
      let rs := map (eval epochs ms) ts in
      (Any (map fst rs), existsb snd rs)
  end.

Definition fires (epochs : Z) (ms : meter_ref -> spec_float) (t : trigger)
  : bool := snd (eval epochs ms t).

(** A trigger evaluated at a sequence of epoch boundaries, each given by
    the epoch counter and the meters' values there: the state reached and
    whether each evaluation fired. *)
Fixpoint run_evals (t : trigger)
    (envs : list (Z * (meter_ref -> spec_float))) : trigger * list bool :=
  match envs with
  | [] => (t, [])
  | (epochs, ms) :: rest =>
      let (t', b) := eval epochs ms t in
      let (t'', bs) := run_evals t' rest in
      (t'', b :: bs)
  end.

(** A trigger fed a sequence of values of its meter, evaluated after
    each. *)
Definition feed (t : trigger) (vs : list spec_float) : trigger * list bool :=
  run_evals t (map (fun v => (0%Z, fun _ : meter_ref => v)) vs).

Definition members (t : trigger) : list trigger :=
  match t with Any ts => ts | _ => [] end.

Definition is_NumEpochs (t : trigger) : Prop :=
  match t with NumEpochs _ => True | _ => False end.

Definition is_MeterStandardDeviation (t : trigger) : Prop :=
  match t with MeterStandardDeviation _ _ _ _ => True | _ => False end.

(** *** The standard deviation as a real number *)

Definition Rsum (l : list R) : R := fold_right Rplus 0%R l.

Definition Rmean (l : list R) : R := (Rsum l / INR (length l))%R.

(** Modelled from the spec: the sample standard deviation of at least
    two real values, the square root of the sum of the squared
    deviations from the mean over [n - 1]. *)
Definition sample_std (l : list R) : R :=
  sqrt (Rsum (map (fun x => (x - Rmean l) * (x - Rmean l)) l)
        / (INR (length l) - 1))%R.

(** The sample standard deviation of the window is defined and at or
    below the threshold. *)
Definition std_at_or_below (window : list spec_float) (T : spec_float)
  : Prop :=
  (2 <= length window)%nat /\
  exists qs, to_Qs window = Some qs /\
    (T = PyFloat.inf \/
     exists t, PyFloat.to_Q T = Some t /\
               (sample_std (map Q2R qs) <= Q2R t)%R).

End Triggers.

(** ** The script *)

Section Main.
Context {OS : OsPath} {T : Torch}.
Import Triggers.

(** The options the modelled part of the script reads. *)
Record Args : Type := mkArgs {
  max_epochs : option Z;
  valid_cer_std_window_size : option Z;
  valid_cer_std_threshold : option spec_float;
  save_checkpoint : string;
  load_checkpoint : option string
}.

(** [engine_wrapper.valid_cer] *)
Definition valid_cer : meter_ref := 0%nat.

(** [bool(x)] for an optional integer and an optional float. *)
Definition int_truthy (x : option Z) : bool :=
  match x with Some n => negb (n =? 0)%Z | None => false end.
Definition float_truthy (x : option spec_float) : bool :=
  match x with Some f => PyFloat.truthy f | None => false end.

(** Lines 141 to 148: the checkpoint loaded at startup. *)
Definition load_checkpoint_step (args : Args) (m : module) (o : optimizer)
  : M (module * optimizer) :=
  match load_checkpoint args with
  | Some path =>
      if str_truthy path then
        log_loading path ;;;
        saved_dict <- torch_load path ;;
        has_model <- lift (py_in "model" saved_dict) ;;
        both <- (if has_model : bool
                 then lift (py_in "optimizer" saved_dict)
                 else ret false) ;;
        if both : bool then
          sm <- lift (py_getitem saved_dict "model") ;;
          m' <- lift (load_state_dict m sm) ;;
          so <- lift (py_getitem saved_dict "optimizer") ;;
          o' <- lift (optim_load_state_dict o so) ;;
          ret (m', o')
        else
          m' <- lift (load_state_dict m saved_dict) ;;
          ret (m', o)
      else ret (m, o)
  | None => ret (m, o)
  end.

(** The world once the path has been logged and the file read. *)
Definition loading_world (path : string) (w : world) : world :=
  emit (EvLoad path) (emit (EvLogLoading path) w).

(** Lines 205 to 218: the list of early-stop triggers. *)
Definition early_stop_triggers (args : Args) : list trigger :=
  let ts : list trigger := [] in
  let ts :=
    match max_epochs args with
    | Some n =>
        if int_truthy (Some n) && (n >? 0)%Z
        then (ts ++ [NumEpochs n])%list else ts
    | None => ts
    end in
  let ts :=
    match valid_cer_std_window_size args, valid_cer_std_threshold args with
    | Some W, Some thr =>
        if int_truthy (Some W) && float_truthy (Some thr)
        then (ts ++ [MeterStandardDeviation valid_cer thr W []])%list else ts
    | _, _ => ts
    end in
  ts.

(** The training engine ([laia.engine]) is not among the sources at
    hand: [engine_wrapper.run()] is a parameter, given the early-stop
    trigger and the epoch-end hooks the script has registered. *)
Class Engine : Type := {
  engine_run : trigger -> list SaveModelCheckpointHook -> Trainer -> M Trainer
}.
Context {E : Engine}.

(** Lines 234 to 238: the save after training. *)
Definition final_save (args : Args) (t : Trainer) : M unit :=
  if str_truthy (save_checkpoint args) then
    torch_save (checkpoint_record (state_dict (model t))
                                  (optim_state_dict (optimizer_of t)))
               (save_checkpoint args)
  else ret tt.

(** Lines 220 to 238: triggers and hook registered, the run, the save. *)
Definition train (args : Args) (t : Trainer) : M Trainer :=
  let stop := Any (early_stop_triggers args) in
  hooks <- (if str_truthy (save_checkpoint args) then
              h <- __init__ valid_cer
                     (save_checkpoint args ++ "-valid-lowest-cer")%string ;;
              ret [h]
            else ret []) ;;
  t' <- engine_run stop hooks t ;;
  final_save args t' ;;;
  ret t'.


End Main.

(** ** Instances to run the model on *)

Module Examples.
Import Triggers.

(** Paths without directories. *)
Definition flat_os : OsPath :=
  {| normpath := fun p => p; dirname := fun _ => "" |}.

(** A module and an optimizer that are their state dictionaries; a state
    that is not a dictionary is refused. *)
Definition load_dict (d : pyobj) : exn + pyobj :=
  match d with
  | PDict _ => inr d
  | PTensor _ => inl RuntimeError
  end.

Definition dict_torch : Torch :=
  {| module := pyobj; optimizer := pyobj;
     state_dict := fun m => m;
     load_state_dict := fun _ d => load_dict d;
     optim_state_dict := fun o => o;
     optim_load_state_dict := fun _ d => load_dict d |}.

Section Scripted.
Context {OS : OsPath} {T : Torch}.

(** Modelled from the spec: the hooks registered for the epoch end are
    called one after the other, in registration order; an exception
    raised by one propagates. *)
Fixpoint call_hooks (hooks : list SaveModelCheckpointHook) (t : Trainer)
  : M (list SaveModelCheckpointHook) :=
  match hooks with
  | [] => ret []
  | h :: rest =>
      h' <- __call__ h (CTrainer t) ;;
      rest' <- call_hooks rest t ;;
      ret (h' :: rest')
  end.

(** Modelled from the spec: the engine's loop over epochs, of which
    [laia.engine] holds the code.  An epoch trains (the script gives the
    trainer's state after it), validates (the script gives the value of
    the meter), calls the epoch-end hooks in registration order, then
    evaluates the early-stop trigger on the completed-epoch counter and
    halts when it fires. *)
Fixpoint run_epochs (script : list (Trainer * spec_float)) (done : Z)
    (stop : trigger) (hooks : list SaveModelCheckpointHook) (t : Trainer)
  : M Trainer :=
  match script with
  | [] => ret t
  | (t', v) :: rest =>
      fun w =>
        let w1 := set_meter valid_cer v w in
        (hooks' <- call_hooks hooks t' ;;
         fun w2 =>
           let (stop', fired) := eval (done + 1) (meters w2) stop in
           if fired then ret t' w2
           else run_epochs rest (done + 1) stop' hooks' t' w2) w1
  end.

Definition scripted_engine (script : list (Trainer * spec_float))
  : Engine :=
  {| engine_run := run_epochs script 0 |}.
End Scripted.

(** The floats of the decimal literals used below, [0.50] to [0.01]. *)
Definition f0_50 : spec_float := Eval vm_compute in PyFloat.dec 50 2.
Definition f0_30 : spec_float := Eval vm_compute in PyFloat.dec 30 2.
Definition f0_20 : spec_float := Eval vm_compute in PyFloat.dec 20 2.
Definition f0_05 : spec_float := Eval vm_compute in PyFloat.dec 5 2.
Definition f0_04 : spec_float := Eval vm_compute in PyFloat.dec 4 2.
Definition f0_045 : spec_float := Eval vm_compute in PyFloat.dec 45 3.
Definition f0_01 : spec_float := Eval vm_compute in PyFloat.dec 1 2.

Definition tensor (n : Z) : pyobj :=
  PTensor [match n with
           | Z0 => S754_zero false
           | Zpos p => S754_finite false p 0
           | Zneg p => S754_finite true p 0
           end].

(** A model with one weight and an optimizer with one momentum buffer. *)
Definition net (n : Z) : pyobj := PDict {[ "linear.weight" := tensor n ]}.
Definition sgd (n : Z) : pyobj := PDict {[ "momentum_buffer" := tensor n ]}.

Definition trainer_at (n : Z) : @Trainer dict_torch :=
  @mkTrainer dict_torch (net n) (sgd n).

Definition empty_world : world :=
  mkWorld (fun _ => S754_zero false) ∅ ∅ [].

(** The values and the threshold of the end-to-end scenario. *)
Definition scenario_values : list spec_float :=
  [f0_50; f0_20; f0_05; f0_04; f0_045].

Definition scenario_trigger : trigger :=
  MeterStandardDeviation 0%nat f0_01 3 [].

(** Three epochs with validation CER 0.5, 0.2 and 0.3. *)
Definition three_epochs : list (@Trainer dict_torch * spec_float) :=
  [(trainer_at 1, f0_50); (trainer_at 2, f0_20); (trainer_at 3, f0_30)].

(** A world whose meter [valid_cer] reads [v]. *)
Definition world_reading (v : spec_float) : world :=
  set_meter 0%nat v empty_world.

(** The script's options: at most [n] epochs, the plateau trigger off
    (window size 0), checkpoints saved to [save] and none loaded. *)
Definition args_saving_to (n : Z) (save : string) : Args :=
  mkArgs (Some n) (Some 0%Z) (Some f0_01) save None.

Definition args_loading (path : string) : Args :=
  mkArgs None None None "model.ckpt" (Some path).

(** A file in the old format: the model's state dictionary alone. *)
Definition world_with_old_checkpoint : world :=
  mkWorld (fun _ => S754_zero false) {[ "old.ckpt" := net 7 ]} ∅ [].

End Examples.

(** ** More notions for the hook *)

(** Each value of the list is strictly below the one before it. *)
Fixpoint strictly_decreasing (l : list spec_float) : bool :=
  match l with
  | a :: (b :: _) as rest => PyFloat.lt b a && strictly_decreasing rest
  | _ => true
  end.

(** Two worlds with the same files, directories, checkpoint writes and
    logged values. *)
Definition same_io (w w' : world) : Prop :=
  files w = files w' /\ dirs w = dirs w' /\
  saves (trace w) = saves (trace w') /\
  logged (trace w) = logged (trace w').

(** ** The output layer of [build_model] *)

Module Wrappers.
Section Forward.

(** Tensors, and what the script uses of [torch]: [y.size(0)] and
    [pack_padded_sequence(input=y, lengths=...)].  [PackedSequence] is
    declared in [torch] as a named tuple; whether [isinstance(p, tuple)]
    holds for one is left open as [packed_is_tuple]. *)
Variable tensor : Type.
Variable size0 : tensor -> Z.
Variable packed_is_tuple : bool.

(** The values that flow into the wrappers: a tensor, a packed sequence
    with its data and batch sizes, a tuple. *)
#[local] Unset Elimination Schemes.
Inductive pyval : Type :=
  | VTensor (t : tensor)
  | VPacked (data : pyval) (batch_sizes : pyval)
  | VTuple (items : list pyval).
#[local] Set Elimination Schemes.

Inductive werr : Type :=
  | IndexError
  | AttributeError
  | ModuleError (e : exn).

Variable pack_padded_sequence : pyval -> list Z -> werr + pyval.

(** [RNNWrapper.forward], lines 57 to 60. *)
Definition RNNWrapper_forward (_module : pyval -> werr + pyval)
    (input : pyval) : werr + pyval :=
  match input with
  | VTuple [] => inl IndexError
  | VTuple (first :: _) => _module first
  | VPacked data _ => if packed_is_tuple then _module data else _module input
  | VTensor _ => _module input
  end.

(** [PackedSequenceWrapper.forward], lines 70 to 80. *)
Definition PackedSequenceWrapper_forward (_module : pyval -> werr + pyval)
    (input : pyval) : werr + pyval :=
  let (x, xs) := match input with
                 | VPacked data batch_sizes => (data, Some batch_sizes)
                 | _ => (input, None)
                 end in
  match _module x with
  | inl e => inl e
  | inr y =>
      match xs with
      | None =>
          match y with
          | VTensor t => pack_padded_sequence y [size0 t]
          | _ => inl AttributeError
          end
      | Some batch_sizes => inr (VPacked y batch_sizes)
      end
  end.

(** The module added as ['linear'], lines 96 to 98:
    [RNNWrapper(PackedSequenceWrapper(linear))]. *)
Definition linear_forward (linear : pyval -> werr + pyval)
  : pyval -> werr + pyval :=
  RNNWrapper_forward (PackedSequenceWrapper_forward linear).

End Forward.

Arguments VTensor {tensor} t.
Arguments VPacked {tensor} data batch_sizes.
Arguments VTuple {tensor} items.
Arguments RNNWrapper_forward {tensor} packed_is_tuple _module input.
Arguments PackedSequenceWrapper_forward
  {tensor} size0 pack_padded_sequence _module input.
Arguments linear_forward
  {tensor} size0 packed_is_tuple pack_padded_sequence linear _.

End Wrappers.

(** ** The layers of [build_model] *)

Module Model.
Section BuildModel.

(** The layers of [build_conv_model()], of which [dortmund_utils] holds
    the code, are a parameter. *)
Variable conv_layer : Type.

(** The layers the script adds, with the arguments it gives them; the
    last is [RNNWrapper(PackedSequenceWrapper(torch.nn.Linear(...)))]. *)
Inductive layer : Type :=
  | ConvLayer (c : conv_layer)
  | AdaptiveAvgPool2d (height : Z) (width : option Z)
  | ImageToSequence (return_packed : bool)
  | LSTM (input_size hidden_size num_layers : Z) (dropout : spec_float)
         (bidirectional : bool)
  | WrappedLinear (in_features out_features : Z).

(** A module's children: names to layers, in insertion order. *)
Definition children : Type := list (string * layer).

(** [m.add_module(name, layer)], that is [m._modules[name] = layer] on
    an ordered dictionary: an existing name keeps its place and gets the
    new layer, a new name goes to the end. *)
Fixpoint add_module (name : string) (l : layer) (m : children) : children :=
  match m with
  | [] => [(name, l)]
  | (n, x) :: rest =>
      if String.eqb n name then (n, l) :: rest
      else (n, x) :: add_module name l rest
  end.

(** [m._modules[name]] *)
Fixpoint get_module (name : string) (m : children) : option layer :=
  match m with
  | [] => None
  | (n, x) :: rest => if String.eqb n name then Some x else get_module name rest
  end.

(** [build_model], lines 85 to 99, from the children of the
    convolutional model. *)
Definition build_model (conv : children) (num_outputs : Z)
    (adaptive_pool_height lstm_hidden_size lstm_num_layers : Z) : children :=
  let m := conv in
  let m := add_module "adap_pool"
             (AdaptiveAvgPool2d adaptive_pool_height None) m in
  let m := add_module "collapse" (ImageToSequence true) m in
  let m := add_module "blstm"
             (LSTM (512 * adaptive_pool_height) lstm_hidden_size
                   lstm_num_layers (S754_finite false 4503599627370496 (-53))
                   true) m in
  let m := add_module "linear"
             (WrappedLinear (2 * lstm_hidden_size) num_outputs) m in
  m.

End BuildModel.

Arguments ConvLayer {conv_layer} c.
Arguments AdaptiveAvgPool2d {conv_layer} height width.
Arguments ImageToSequence {conv_layer} return_packed.
Arguments LSTM
  {conv_layer} input_size hidden_size num_layers dropout bidirectional.
Arguments WrappedLinear {conv_layer} in_features out_features.
Arguments add_module {conv_layer} name l m.
Arguments get_module {conv_layer} name m.
Arguments build_model {conv_layer} conv num_outputs
  adaptive_pool_height lstm_hidden_size lstm_num_layers.

End Model.

(** ** More instances to run the model on *)

Module MoreExamples.
Import Examples.

(** Paths whose directory is [ckpt]. *)
Definition ckpt_os : OsPath :=
  {| normpath := fun p => p; dirname := fun _ => "ckpt" |}.

(** Epochs with validation CER 0.5, NaN, 0.2 and 0.3. *)
Definition epochs_with_nan : list (@Trainer dict_torch * spec_float) :=
  [(trainer_at 1, f0_50); (trainer_at 9, S754_nan); (trainer_at 2, f0_20);
   (trainer_at 3, f0_30)].

(** The epochs 0.5, 0.2, 0.3 in another order. *)
Definition three_epochs_shuffled : list (@Trainer dict_torch * spec_float) :=
  [(trainer_at 3, f0_30); (trainer_at 1, f0_50); (trainer_at 2, f0_20)].

(** Tensors that are lists of integers; a linear layer that doubles each
    entry, and a packing of one sequence with batch sizes all 1. *)
Definition double (v : Wrappers.pyval (list Z))
  : Wrappers.werr + Wrappers.pyval (list Z) :=
  match v with
  | Wrappers.VTensor t => inr (Wrappers.VTensor (map (Z.mul 2) t))
  | _ => inl (Wrappers.ModuleError TypeError)
  end.

Definition pack_one (y : Wrappers.pyval (list Z)) (lengths : list Z)
  : Wrappers.werr + Wrappers.pyval (list Z) :=
  match lengths with
  | [n] => inr (Wrappers.VPacked y
                  (Wrappers.VTensor (repeat 1%Z (Z.to_nat n))))
  | _ => inl (Wrappers.ModuleError ValueError)
  end.

End MoreExamples.

(* ================================================================== *)
(** * Part II: properties *)
(* ================================================================== *)

(** ** The order on floats *)

Module PyFloatFacts.
Import PyFloat.

Ltac float_cases :=
  repeat match goal with
         | f : spec_float |- _ => destruct f
         | s : bool |- _ => destruct s
         end;
  simpl in *; try congruence.

Ltac cmp_cases :=
  repeat match goal with
         | H : context [(?a ?= ?b)%Z] |- _ =>
             destruct (Z.compare_spec a b); simpl in H
         | |- context [(?a ?= ?b)%Z] =>
             destruct (Z.compare_spec a b); simpl
         | H : context [PosDef.Pos.compare_cont Eq ?a ?b] |- _ =>
             change (PosDef.Pos.compare_cont Eq a b)
               with (Pos.compare a b) in H;
             destruct (Pos.compare_spec a b); simpl in H
         | |- context [PosDef.Pos.compare_cont Eq ?a ?b] =>
             change (PosDef.Pos.compare_cont Eq a b) with (Pos.compare a b);
             destruct (Pos.compare_spec a b); simpl
         end;
  subst; try congruence; try lia.

Lemma lt_trans a b c : lt a b = true -> lt b c = true -> lt a c = true.
Proof. unfold lt, SFltb, SFcompare. float_cases; cmp_cases. Qed.

Lemma lt_irrefl a : lt a a = false.
Proof. unfold lt, SFltb, SFcompare. float_cases; cmp_cases. Qed.

Lemma lt_le a b : lt a b = true -> le a b = true.
Proof.
  unfold lt, le, SFltb, SFleb. destruct (SFcompare a b) as [[]|]; congruence.
Qed.

Lemma le_lt_false a b : le a b = true -> lt b a = false.
Proof. unfold lt, le, SFltb, SFleb, SFcompare. float_cases; cmp_cases. Qed.

Lemma lt_not_nan_l a b : lt a b = true -> is_nan a = false.
Proof. unfold lt, SFltb, SFcompare. float_cases. Qed.

Lemma lt_not_nan_r a b : lt a b = true -> is_nan b = false.
Proof. unfold lt, SFltb, SFcompare. float_cases. Qed.

Lemma le_refl a : is_nan a = false -> le a a = true.
Proof. unfold le, SFleb, SFcompare. float_cases; cmp_cases. Qed.

(** Floats that are not NaN are totally ordered. *)
Lemma not_lt_le a b :
  is_nan a = false -> is_nan b = false -> lt a b = false -> le b a = true.
Proof. unfold lt, le, SFltb, SFleb, SFcompare. float_cases; cmp_cases. Qed.

Lemma le_lt_trans a b c : le a b = true -> lt b c = true -> lt a c = true.
Proof. unfold lt, le, SFltb, SFleb, SFcompare. float_cases; cmp_cases. Qed.

Lemma lt_le_trans a b c : lt a b = true -> le b c = true -> lt a c = true.
Proof. unfold lt, le, SFltb, SFleb, SFcompare. float_cases; cmp_cases. Qed.

Lemma le_trans a b c : le a b = true -> le b c = true -> le a c = true.
Proof. unfold lt, le, SFltb, SFleb, SFcompare. float_cases; cmp_cases. Qed.

(** Nothing but NaN and [+inf] itself fails to be below [+inf]. *)
Lemma lt_inf a : lt a inf = negb (is_nan a) && negb (SFeqb a inf).
Proof. unfold lt, SFltb, SFeqb, SFcompare, inf. float_cases. Qed.

Lemma le_inf a : is_nan a = false -> le a inf = true.
Proof. unfold le, SFleb, SFcompare, inf. float_cases. Qed.

End PyFloatFacts.

(** ** The checkpoint hook *)

Section HookFacts.
Context {OS : OsPath} {T : Torch}.
Import PyFloat PyFloatFacts.

Lemma saves_app tr tr' : saves (tr ++ tr') = saves tr ++ saves tr'.
Proof.
  induction tr as [|e tr IH]; [reflexivity|].
  destruct e; simpl; rewrite ?IH; reflexivity.
Qed.

Lemma logged_app tr tr' : logged (tr ++ tr') = logged tr ++ logged tr'.
Proof.
  induction tr as [|e tr IH]; [reflexivity|].
  destruct e; simpl; rewrite ?IH; reflexivity.
Qed.

Lemma init_fresh meter filename w :
  exists h w', __init__ meter filename w = (inr h, w')
               /\ _meter h = meter /\ _lowest h = inf
               /\ _filename h = normpath filename
               /\ files w' = files w /\ meters w' = meters w.
Proof.
  unfold __init__.
  destruct (str_truthy _ && negb _); eexists _, _; simpl; eauto 10.
Qed.

Lemma call_lower self t w :
  lt (meters w (_meter self)) (_lowest self) = true ->
  __call__ self (CTrainer t) w =
    (inr (mkHook (_meter self) (meters w (_meter self)) (_filename self)),
     saved_world self t w).
Proof.
  intros Hlt. unfold __call__, bind, read_meter, saved_world. simpl.
  rewrite Hlt. unfold log_lowest, _save, torch_save, ret, emit. simpl.
  repeat rewrite <- app_assoc. reflexivity.
Qed.

Lemma call_not_lower self t w :
  lt (meters w (_meter self)) (_lowest self) = false ->
  __call__ self (CTrainer t) w = (inr self, emit (EvReadMeter (_meter self)) w).
Proof.
  intros Hlt. unfold __call__, bind, read_meter. simpl.
  rewrite Hlt. reflexivity.
Qed.

Lemma call_lowest self t w :
  exists h' w', __call__ self (CTrainer t) w = (inr h', w')
    /\ _meter h' = _meter self /\ _filename h' = _filename self
    /\ _lowest h' = lower (_lowest self) (meters w (_meter self)).
Proof.
  unfold lower.
  destruct (lt (meters w (_meter self)) (_lowest self)) eqn:Hlt.
  - rewrite (call_lower _ _ _ Hlt). eexists _, _; simpl; eauto.
  - rewrite (call_not_lower _ _ _ Hlt). eexists _, _; simpl; eauto.
Qed.

Lemma meters_set_meter m v w : meters (set_meter m v w) m = v.
Proof. simpl. rewrite Nat.eqb_refl. reflexivity. Qed.

Lemma observe_lowest self t v w :
  exists h' w', observe self (CTrainer t) v w = (inr h', w')
    /\ _meter h' = _meter self /\ _filename h' = _filename self
    /\ _lowest h' = lower (_lowest self) v.
Proof.
  unfold observe.
  destruct (call_lowest self t (set_meter (_meter self) v w))
    as (h' & w' & Hc & Hm & Hf & Hl).
  rewrite meters_set_meter in Hl. eauto 10.
Qed.

(** The hook never raises on a trainer, and its record is the fold of
    [lower] over the values it saw. *)
Lemma observe_all_lowest self epochs w :
  exists h' w', observe_all self epochs w = (inr h', w')
    /\ _meter h' = _meter self /\ _filename h' = _filename self
    /\ _lowest h' = fold_left lower (map snd epochs) (_lowest self).
Proof.
  revert self w. induction epochs as [|[t v] rest IH]; intros self w.
  - eexists _, _. simpl. eauto.
  - destruct (observe_lowest self t v w) as (h1 & w1 & Ho & Hm & Hf & Hl).
    destruct (IH h1 w1) as (h2 & w2 & Ha & Hm2 & Hf2 & Hl2).
    exists h2, w2. simpl. unfold bind. rewrite Ho, Ha.
    rewrite Hm2, Hf2, Hl2, Hm, Hf, Hl. auto.
Qed.

(** *** The fold of [lower] *)

Lemma lower_not_nan acc v : is_nan acc = false -> is_nan (lower acc v) = false.
Proof.
  unfold lower. destruct (lt v acc) eqn:Hlt; [|auto].
  intros _. eapply lt_not_nan_l; eassumption.
Qed.

Lemma lower_le acc v : is_nan acc = false -> le (lower acc v) acc = true.
Proof.
  unfold lower. destruct (lt v acc) eqn:Hlt; intros Hn.
  - apply lt_le; assumption.
  - apply le_refl; assumption.
Qed.

Lemma fold_lower_not_nan vs acc :
  is_nan acc = false -> is_nan (fold_left lower vs acc) = false.
Proof.
  revert acc. induction vs as [|v vs IH]; intros acc Hn; simpl; [assumption|].
  apply IH, lower_not_nan, Hn.
Qed.

Lemma fold_lower_le vs acc :
  is_nan acc = false -> le (fold_left lower vs acc) acc = true.
Proof.
  revert acc. induction vs as [|v vs IH]; intros acc Hn; simpl.
  - apply le_refl, Hn.
  - eapply le_trans; [apply IH, lower_not_nan, Hn | apply lower_le, Hn].
Qed.

Lemma fold_lower_attained vs acc :
  fold_left lower vs acc = acc \/ In (fold_left lower vs acc) vs.
Proof.
  revert acc. induction vs as [|v vs IH]; intros acc; simpl; [auto|].
  destruct (IH (lower acc v)) as [He|Hin]; [|auto].
  rewrite He. unfold lower. destruct (lt v acc); auto.
Qed.

(** No value seen lies strictly below the record. *)
Lemma fold_lower_bound vs acc :
  is_nan acc = false ->
  Forall (fun v => lt v (fold_left lower vs acc) = false) vs.
Proof.
  revert acc. induction vs as [|v vs IH]; intros acc Hn; simpl; constructor.
  - destruct (lt v (fold_left lower vs (lower acc v))) eqn:Hlt; [|reflexivity].
    exfalso.
    pose proof (fold_lower_le vs (lower acc v) (lower_not_nan _ v Hn)) as Hle.
    pose proof (lt_le_trans _ _ _ Hlt Hle) as Hv.
    unfold lower in Hv. destruct (lt v acc) eqn:Hva.
    + rewrite lt_irrefl in Hv. discriminate.
    + congruence.
  - apply IH, lower_not_nan, Hn.
Qed.

Lemma fold_lower_lt_iff vs acc x :
  is_nan acc = false -> Forall (fun v => is_nan v = false) vs ->
  lt x (fold_left lower vs acc) = true <->
  lt x acc = true /\ Forall (fun v => lt x v = true) vs.
Proof.
  intros Hn Hvs. revert acc Hn.
  induction Hvs as [|v vs Hv Hvs IH]; intros acc Hn; simpl.
  - split; [intros H; split; [assumption|constructor] | intros [H _]; exact H].
  - rewrite (IH _ (lower_not_nan _ v Hn)). unfold lower.
    destruct (lt v acc) eqn:Hva.
    + split.
      * intros [Hxv Hall]. split; [eapply lt_trans; eassumption|].
        constructor; assumption.
      * intros [Hxa Hall]. inversion Hall; subst. auto.
    + split.
      * intros [Hxa Hall]. split; [assumption|]. constructor; [|assumption].
        eapply lt_le_trans; [exact Hxa|]. apply not_lt_le; assumption.
      * intros [Hxa Hall]. inversion Hall; subst. auto.
Qed.

Lemma fold_lower_minimum vs :
  Forall (fun v => is_nan v = false) vs -> vs <> [] ->
  is_minimum (fold_left lower vs inf) vs.
Proof.
  intros Hvs Hne. split.
  - destruct vs as [|v vs]; [congruence|]. simpl.
    inversion Hvs as [|? ? Hv Hvs']; subst.
    destruct (fold_lower_attained vs (lower inf v)) as [He|Hin]; [|auto].
    rewrite He. unfold lower. destruct (lt v inf) eqn:Hlt; [auto|].
    left. rewrite lt_inf, Hv in Hlt. simpl in Hlt.
    apply negb_false_iff in Hlt.
    unfold SFeqb, SFcompare, inf in Hlt.
    destruct v as [| [] | |]; simpl in Hlt; try discriminate; reflexivity.
  - pose proof (fold_lower_bound vs inf eq_refl) as Hb.
    pose proof (fold_lower_not_nan vs inf eq_refl) as Hm.
    rewrite Forall_forall in *. intros v Hin.
    apply not_lt_le; auto.
Qed.

Lemma inf_lt_false x : lt inf x = false.
Proof.
  unfold lt, SFltb, SFcompare, inf. destruct x as [s|[]| |s m e]; reflexivity.
Qed.

Lemma not_below_inf v : is_nan v = false -> lt v inf = false -> v = inf.
Proof.
  unfold lt, SFltb, SFcompare, inf.
  destruct v as [[]|[]| |[] m e]; simpl; congruence.
Qed.

(** For numbers, the first of which is not [+inf], a value is strictly
    below the record exactly when it is strictly below every value that
    went into the record. *)
Lemma below_record_iff prev v :
  Forall (fun p => is_nan p = false) (v :: prev) ->
  (prev = [] -> v <> inf) ->
  lt v (fold_left lower prev inf) = true <->
  Forall (fun p => lt v p = true) prev.
Proof.
  intros Hnum Hfirst. inversion Hnum as [|? ? Hv Hprev]; subst.
  rewrite (fold_lower_lt_iff prev inf v eq_refl Hprev).
  destruct (lt v inf) eqn:Hvi; [tauto|].
  pose proof (not_below_inf v Hv Hvi) as ->.
  split; [intros [Hd _]; discriminate|].
  destruct prev as [|p prev]; [contradiction Hfirst; reflexivity|].
  intros Hall. inversion Hall as [|? ? Hp _]; subst.
  rewrite inf_lt_false in Hp. discriminate.
Qed.

(** The record handed to [torch.save] has the two entries and no
    other. *)
Lemma checkpoint_record_holds_states m o :
  holds_states (checkpoint_record m o) m o.
Proof.
  unfold holds_states, checkpoint_record, py_getitem, py_in.
  split; [|split].
  - rewrite lookup_insert_eq. reflexivity.
  - rewrite lookup_insert_ne by discriminate.
    rewrite lookup_insert_eq. reflexivity.
  - intros key Hm Ho. f_equal. apply bool_decide_eq_false.
    rewrite !lookup_insert_ne by congruence.
    rewrite lookup_empty. intros [x Hx]. discriminate.
Qed.

End HookFacts.

Section HookClaims.
Context {OS : OsPath} {T : Torch}.
Import PyFloat PyFloatFacts.

(** C1. A hook built by [__init__] starts with the record [+inf]; called
    at the end of each of a sequence of epochs it never raises, and its
    record then is the running minimum of the values seen: it is the
    fold [running_min], it is [+inf] or one of the values, no value seen
    lies strictly below it, and when the values are numbers (no NaN)
    and there is at least one, it is their minimum.  The record is
    non-increasing: after any further call it is at or below what it
    was. *)
Theorem lowest_is_running_minimum
    (meter : meter_ref) (filename : string) (w_init : world)
    (epochs : list (Trainer * spec_float)) :
  exists h0 w0 h w,
    __init__ meter filename w_init = (inr h0, w0) /\ _lowest h0 = inf /\
    observe_all h0 epochs w0 = (inr h, w) /\
    let vs := map snd epochs in
    _lowest h = running_min vs /\
    (_lowest h = inf \/ In (_lowest h) vs) /\
    Forall (fun v => lt v (_lowest h) = false) vs /\
    (Forall (fun v => is_nan v = false) vs -> vs <> [] ->
     is_minimum (_lowest h) vs) /\
    (forall t v, exists h' w',
        observe h (CTrainer t) v w = (inr h', w') /\
        le (_lowest h') (_lowest h) = true).
Proof.
  destruct (init_fresh meter filename w_init)
    as (h0 & w0 & Hi & Hm0 & Hl0 & Hf0 & _).
  destruct (observe_all_lowest h0 epochs w0) as (h & w & Ha & Hm & Hf & Hl).
  rewrite Hl0 in Hl.
  exists h0, w0, h, w. repeat split; try assumption.
  - rewrite Hl. apply fold_lower_attained.
  - rewrite Hl. apply fold_lower_bound. reflexivity.
  - rewrite Hl. apply fold_lower_minimum; assumption.
  - rewrite Hl. apply fold_lower_minimum; assumption.
  - intros t v.
    destruct (observe_lowest h t v w) as (h' & w' & Ho & _ & _ & Hl').
    exists h', w'. split; [assumption|].
    rewrite Hl'. apply lower_le. rewrite Hl.
    apply fold_lower_not_nan. reflexivity.
Qed.

Lemma written_saved_world self t w : written w (saved_world self t w).
Proof.
  unfold written, saved_world. simpl. rewrite saves_app. simpl.
  intros He. apply (f_equal (@length _)) in He.
  rewrite length_app in He. simpl in He. lia.
Qed.

Lemma not_written_read m w : ~ written w (emit (EvReadMeter m) w).
Proof.
  unfold written, emit. simpl. rewrite saves_app. simpl.
  rewrite app_nil_r. intros He. apply He. reflexivity.
Qed.

(** C2, as the hook has it.  A call of the hook on a trainer writes
    the checkpoint record, a dictionary with the model's state under
    ['model'], the optimizer's under ['optimizer'] and no other key,
    exactly when the meter's value is strictly below the record, which
    starts at [+inf]; a value at or above the record (ties included)
    writes nothing, and a call that writes nothing leaves the hook, the
    files, the directories and the log as they were.  When the values
    are numbers (no NaN) and the first of them is not [+inf], being
    strictly below the record is being strictly below every value seen
    before. *)
Theorem checkpoint_written_iff_strictly_lower
    (meter : meter_ref) (filename : string) (w_init : world)
    (epochs : list (Trainer * spec_float)) (t : Trainer) (w_now : world) :
  exists h0 w0 h w h' w',
    __init__ meter filename w_init = (inr h0, w0) /\
    observe_all h0 epochs w0 = (inr h, w) /\
    __call__ h (CTrainer t) w_now = (inr h', w') /\
    let v := meters w_now meter in
    let prev := map snd epochs in
    let rec := checkpoint_record (state_dict (model t))
                                 (optim_state_dict (optimizer_of t)) in
    (written w_now w' <-> lt v (_lowest h) = true) /\
    (written w_now w' ->
       saves (trace w') = saves (trace w_now) ++ [(_filename h, rec)] /\
       files w' = <[_filename h := rec]> (files w_now) /\
       _lowest h' = v /\
       holds_states rec (state_dict (model t))
                        (optim_state_dict (optimizer_of t))) /\
    (le (_lowest h) v = true -> ~ written w_now w') /\
    (~ written w_now w' ->
       h' = h /\ files w' = files w_now /\ dirs w' = dirs w_now /\
       logged (trace w') = logged (trace w_now)) /\
    (Forall (fun p => is_nan p = false) (v :: prev) ->
     (prev = [] -> v <> inf) ->
     (written w_now w' <-> Forall (fun p => lt v p = true) prev)).
Proof.
  destruct (init_fresh meter filename w_init)
    as (h0 & w0 & Hi & Hm0 & Hl0 & Hf0 & _).
  destruct (observe_all_lowest h0 epochs w0) as (h & w & Ha & Hm & Hf & Hl).
  rewrite Hl0 in Hl. rewrite Hm0 in Hm. clear Hm0. subst meter.
  assert (exists h' w',
             __call__ h (CTrainer t) w_now = (inr h', w') /\
             (written w_now w' <->
              lt (meters w_now (_meter h)) (_lowest h) = true) /\
             (written w_now w' ->
              (h', w') = (mkHook (_meter h) (meters w_now (_meter h))
                                 (_filename h),
                          saved_world h t w_now)) /\
             (~ written w_now w' ->
              (h', w') = (h, emit (EvReadMeter (_meter h)) w_now)))
    as (h' & w' & Hc & Hiff & Hyes & Hno).
  { destruct (lt (meters w_now (_meter h)) (_lowest h)) eqn:Hlt.
    - pose proof (written_saved_world h t w_now) as Hw.
      eexists _, _. split; [apply call_lower; assumption|].
      split; [tauto|]. split; [reflexivity|]. intros Hn. contradiction.
    - pose proof (not_written_read (_meter h) w_now) as Hw.
      eexists _, _. split; [apply call_not_lower; assumption|].
      split; [|split; [intros Hy; contradiction | reflexivity]].
      split; [intros Hy; contradiction | discriminate]. }
  exists h0, w0, h, w, h', w'.
  split; [assumption|]. split; [assumption|]. split; [assumption|].
  cbv zeta. split; [assumption|]. split; [|split; [|split]].
  - intros Hy. specialize (Hyes Hy). injection Hyes as -> ->.
    unfold saved_world. simpl. rewrite saves_app.
    repeat split; try reflexivity; apply checkpoint_record_holds_states.
  - intros Hle Hy. apply Hiff in Hy.
    rewrite (le_lt_false _ _ Hle) in Hy. discriminate.
  - intros Hn. specialize (Hno Hn). injection Hno as -> ->.
    simpl. rewrite logged_app. simpl. rewrite app_nil_r. auto.
  - intros Hnum Hfirst. rewrite Hiff, Hl.
    apply below_record_iff; assumption.
Qed.

(** C10. Called with anything but a trainer, the hook raises
    [AssertionError] and the world is as it was: no meter was read, no
    value logged, no file written; the hook's record is untouched. *)
Theorem call_asserts_trainer
    (self : SaveModelCheckpointHook) (c : caller) (w : world) :
  (forall t, c <> CTrainer t) ->
  __call__ self c w = (inl AssertionError, w).
Proof.
  intros Hc. destruct c as [t| |o]; [|reflexivity|reflexivity].
  exfalso. apply (Hc t). reflexivity.
Qed.

End HookClaims.

(** ** The early-stop triggers *)

Module TriggerFacts.
Import Triggers.

(** *** Windows *)

Lemma lastn_length {A} n (l : list A) :
  length (lastn n l) = Nat.min n (length l).
Proof. unfold lastn. rewrite length_skipn. lia. Qed.

Lemma lastn_all {A} n (l : list A) : (length l <= n)%nat -> lastn n l = l.
Proof.
  intros H. unfold lastn. replace (length l - n)%nat with 0%nat by lia.
  reflexivity.
Qed.

Lemma lastn_snoc {A} n (l : list A) v :
  lastn n (lastn n l ++ [v]) = lastn n (l ++ [v]).
Proof.
  destruct (Nat.le_gt_cases (length l) n) as [Hle|Hgt].
  - rewrite (lastn_all n l Hle). reflexivity.
  - unfold lastn at 1 3. rewrite !length_app, lastn_length. simpl.
    replace (Nat.min n (length l) + 1 - n)%nat with 1%nat by lia.
    replace (length l + 1 - n)%nat with (1 + (length l - n))%nat by lia.
    rewrite <- skipn_skipn. f_equal.
    unfold lastn. rewrite skipn_app.
    replace (length l - n - length l)%nat with 0%nat by lia.
    reflexivity.
Qed.

(** The last [n] elements of a list that ends with [n] elements are
    those. *)
Lemma lastn_suffix {A} (older window : list A) :
  lastn (length window) (older ++ window) = window.
Proof.
  unfold lastn. rewrite length_app.
  replace (length older + length window - length window)%nat
    with (length older) by lia.
  rewrite skipn_app, skipn_all, Nat.sub_diag. reflexivity.
Qed.

(** *** Runs *)

Lemma run_evals_app t envs envs' :
  run_evals t (envs ++ envs') =
    (fst (run_evals (fst (run_evals t envs)) envs'),
     snd (run_evals t envs) ++ snd (run_evals (fst (run_evals t envs)) envs')).
Proof.
  revert t. induction envs as [|[e ms] envs IH]; intros t; simpl.
  - destruct (run_evals t envs'); reflexivity.
  - destruct (eval e ms t) as [t1 b]. rewrite IH.
    destruct (run_evals t1 envs) as [t2 bs]. simpl. reflexivity.
Qed.

Lemma feed_snoc t vs v :
  feed t (vs ++ [v]) =
    (fst (eval 0 (fun _ => v) (fst (feed t vs))),
     snd (feed t vs) ++ [snd (eval 0 (fun _ => v) (fst (feed t vs)))]).
Proof.
  unfold feed. rewrite map_app, run_evals_app. simpl.
  destruct (eval 0 _ _). reflexivity.
Qed.

(** The window of the metric-stability trigger holds the most recent
    values, at most [W] of them. *)
Lemma feed_window m T W vs :
  fst (feed (MeterStandardDeviation m T W []) vs) =
    MeterStandardDeviation m T W (lastn (Z.to_nat W) vs).
Proof.
  induction vs as [|v vs IH] using rev_ind.
  - reflexivity.
  - rewrite feed_snoc. simpl. rewrite IH. simpl. unfold push.
    rewrite lastn_snoc. reflexivity.
Qed.

Lemma window_full_lastn W (l : list spec_float) :
  window_full W (lastn (Z.to_nat W) l) = (W <=? Z.of_nat (length l))%Z.
Proof.
  unfold window_full. rewrite lastn_length.
  destruct (Z.leb_spec W (Z.of_nat (length l)));
    destruct (Z.leb_spec W (Z.of_nat (Nat.min (Z.to_nat W) (length l))));
    try reflexivity; lia.
Qed.

Lemma feed_last_fired m T W vs v :
  List.last (snd (feed (MeterStandardDeviation m T W []) (vs ++ [v]))) false =
    (W <=? Z.of_nat (length (vs ++ [v])))%Z
    && std_at_most (lastn (Z.to_nat W) (vs ++ [v])) T.
Proof.
  rewrite feed_snoc. simpl. rewrite last_last, feed_window. simpl.
  unfold push. rewrite lastn_snoc, window_full_lastn. reflexivity.
Qed.

(** *** From the rationals to the reals *)

Lemma Q2R_inject_Z z : Q2R (inject_Z z) = IZR z.
Proof. unfold Q2R. simpl. lra. Qed.

Lemma Q2R_Qsum l : Q2R (Qsum l) = Rsum (map Q2R l).
Proof.
  induction l as [|x l IH]; simpl.
  - unfold Q2R. simpl. lra.
  - rewrite Q2R_plus, IH. reflexivity.
Qed.

Lemma Q2R_mean l : l <> [] -> Q2R (mean l) = Rmean (map Q2R l).
Proof.
  intros Hne. unfold mean, Rmean.
  assert (Z.of_nat (length l) <> 0%Z) as Hn.
  { destruct l; [congruence|]. simpl. lia. }
  rewrite Q2R_div.
  - rewrite Q2R_Qsum, Q2R_inject_Z, length_map, INR_IZR_INZ. reflexivity.
  - intros He. apply Hn. unfold Qeq in He. simpl in He. lia.
Qed.

Lemma Rsum_squares_nonneg (f : R -> R) l :
  (0 <= Rsum (map (fun x => f x * f x) l))%R.
Proof.
  induction l as [|x l IH]; simpl; [lra|].
  pose proof (Rle_0_sqr (f x)) as Hs. unfold Rsqr in Hs. lra.
Qed.

Lemma sample_variance_spec l var :
  sample_variance l = Some var ->
  (2 <= length l)%nat /\ (0 <= Q2R var)%R
  /\ sqrt (Q2R var) = sample_std (map Q2R l).
Proof.
  unfold sample_variance. destruct (Nat.ltb_spec (length l) 2); [discriminate|].
  intros Hv. injection Hv as <-.
  assert (l <> []) as Hne by (destruct l; simpl in *; [lia|congruence]).
  assert (Q2R (Qsum (map (fun x => (x - mean l) * (x - mean l)) l)
               / inject_Z (Z.of_nat (length l) - 1))%Q
          = (Rsum (map (fun x => (x - Rmean (map Q2R l))
                                 * (x - Rmean (map Q2R l))) (map Q2R l))
             / (INR (length (map Q2R l)) - 1))%R) as Heq.
  { rewrite Q2R_div.
    - rewrite Q2R_Qsum, Q2R_inject_Z, !map_map, length_map.
      rewrite minus_IZR, <- INR_IZR_INZ. f_equal.
      f_equal. apply map_ext. intros x.
      rewrite Q2R_mult, Q2R_minus, Q2R_mean by assumption. reflexivity.
    - intros He. unfold Qeq in He. simpl in He. lia. }
  split; [assumption|]. split.
  - rewrite Heq, length_map. apply Rmult_le_pos.
    + apply (Rsum_squares_nonneg (fun x => (x - Rmean (map Q2R l))%R)).
    + apply Rlt_le, Rinv_0_lt_compat.
      assert (2 <= INR (length l))%R by (apply (le_INR 2); assumption).
      lra.
  - unfold sample_std. rewrite Heq. reflexivity.
Qed.

Lemma sample_variance_defined l :
  (2 <= length l)%nat -> exists var, sample_variance l = Some var.
Proof.
  intros H. unfold sample_variance.
  destruct (Nat.ltb_spec (length l) 2); [lia|]. eauto.
Qed.

Lemma sqrt_le_iff (x t : R) :
  (0 <= x)%R -> (sqrt x <= t)%R <-> (0 <= t)%R /\ (x <= t * t)%R.
Proof.
  intros Hx. split.
  - intros Hs. pose proof (sqrt_pos x) as Hp. split; [lra|].
    rewrite <- (sqrt_sqrt x Hx) at 1. apply Rmult_le_compat; lra.
  - intros [Ht Hxt]. rewrite <- (sqrt_square t Ht).
    apply sqrt_le_1_alt. assumption.
Qed.

Lemma to_Qs_length l qs : to_Qs l = Some qs -> length qs = length l.
Proof.
  revert qs. induction l as [|f l IH]; intros qs; simpl.
  - intros H. injection H as <-. reflexivity.
  - destruct (PyFloat.to_Q f); [|discriminate].
    destruct (to_Qs l); [|discriminate].
    intros H. injection H as <-. simpl. f_equal. apply IH. reflexivity.
Qed.

Lemma to_Q_inf : PyFloat.to_Q PyFloat.inf = None.
Proof. reflexivity. Qed.

(** The decision procedure of the trigger decides the comparison of the
    real standard deviation with the threshold. *)
Lemma std_at_most_iff window T :
  std_at_most window T = true <-> std_at_or_below window T.
Proof.
  unfold std_at_most, std_at_or_below. split.
  - destruct (to_Qs window) as [qs|] eqn:Hqs; [|discriminate].
    destruct (sample_variance qs) as [var|] eqn:Hvar; [|discriminate].
    destruct (sample_variance_spec _ _ Hvar) as (Hlen & Hpos & Hsq).
    rewrite (to_Qs_length _ _ Hqs) in Hlen.
    intros Hd. split; [assumption|]. exists qs. split; [reflexivity|].
    destruct T as [s|[]| |s m e]; try discriminate; auto; right.
    all: match type of Hd with
         | context [PyFloat.to_Q ?f] =>
             destruct (PyFloat.to_Q f) as [t|] eqn:Ht; [|discriminate]
         end.
    all: exists t; split; [reflexivity|].
    all: apply andb_true_iff in Hd as [H0 Hv].
    all: apply Qle_bool_iff, Qle_Rle in H0, Hv.
    all: rewrite <- Hsq; apply sqrt_le_iff; [assumption|].
    all: rewrite Q2R_mult in Hv; unfold Q2R at 1 in H0; simpl in H0; lra.
  - intros (Hlen & qs & Hqs & HT). rewrite Hqs.
    rewrite <- (to_Qs_length _ _ Hqs) in Hlen.
    destruct (sample_variance_defined _ Hlen) as [var Hvar]. rewrite Hvar.
    destruct (sample_variance_spec _ _ Hvar) as (_ & Hpos & Hsq).
    destruct HT as [->|(t & Ht & Hle)]; [reflexivity|].
    rewrite Ht. rewrite <- Hsq in Hle.
    apply sqrt_le_iff in Hle as [H0 Hv]; [|assumption].
    assert (Qle_bool 0 t && Qle_bool var (t * t) = true) as Hd.
    { apply andb_true_iff. split; apply Qle_bool_iff, Rle_Qle.
      - unfold Q2R at 1. simpl. lra.
      - rewrite Q2R_mult. assumption. }
    rewrite Hd. destruct T as [s|[]| |s m e]; try reflexivity; discriminate.
Qed.

End TriggerFacts.

Module TriggerClaims.
Import Triggers TriggerFacts.

(** C3. A metric-stability trigger with window size [W] and threshold
    [T], fed a sequence of values and evaluated after each, does not
    fire at an evaluation made while fewer than [W] values have been
    seen; once at least [W] have been seen, it fires at an evaluation
    exactly when the sample standard deviation of the [W] most recent
    values, the [W] values the sequence seen so far ends with, is at or
    below [T]. *)
Theorem stability_trigger_fires_iff
    (m : meter_ref) (T : spec_float) (W : Z) (vs : list spec_float)
    (v : spec_float) :
  let seen := vs ++ [v] in
  let fired :=
    List.last (snd (feed (MeterStandardDeviation m T W []) seen)) false in
  ((Z.of_nat (length seen) < W)%Z -> fired = false) /\
  (forall older recent,
      seen = older ++ recent -> Z.of_nat (length recent) = W ->
      (fired = true <-> std_at_or_below recent T)).
Proof.
  cbv zeta. rewrite feed_last_fired. split.
  - intros Hlt. apply andb_false_iff. left. apply Z.leb_gt. assumption.
  - intros older recent Hseen HW. rewrite Hseen.
    assert (Z.to_nat W = length recent) as -> by lia.
    rewrite lastn_suffix.
    assert ((W <=? Z.of_nat (length (older ++ recent)))%Z = true) as ->.
    { apply Z.leb_le. rewrite length_app. lia. }
    simpl. apply std_at_most_iff.
Qed.

(** C4. With window size 3 and threshold 0.01, fed 0.50, 0.20, 0.05,
    0.04 and 0.045 and evaluated after each, the trigger does not fire
    after 0.50, 0.20, 0.05 or 0.04 and fires after 0.045, when its
    window is 0.05, 0.04, 0.045. *)
Theorem stability_trigger_scenario :
  feed Examples.scenario_trigger Examples.scenario_values
  = (MeterStandardDeviation 0%nat Examples.f0_01 3
       [Examples.f0_05; Examples.f0_04; Examples.f0_045],
     [false; false; false; false; true]).
Proof. vm_compute. reflexivity. Qed.

Lemma fires_Any epochs ms ts :
  fires epochs ms (Any ts) = true <->
  exists t, In t ts /\ fires epochs ms t = true.
Proof.
  unfold fires. simpl. rewrite existsb_exists. split.
  - intros (r & Hin & Hr). apply in_map_iff in Hin as (t & <- & Hin). eauto.
  - intros (t & Hin & Ht). exists (eval epochs ms t). split; [|assumption].
    apply in_map. assumption.
Qed.

Lemma eval_keeps_NumEpochs epochs ms t n :
  In (NumEpochs n) (members t) ->
  In (NumEpochs n) (members (fst (eval epochs ms t))).
Proof.
  destruct t as [k|m T W vals|ts]; simpl; try tauto.
  intros Hin. rewrite map_map.
  apply in_map_iff. exists (NumEpochs n). split; [reflexivity|assumption].
Qed.

Lemma run_evals_keeps_NumEpochs envs t n :
  In (NumEpochs n) (members t) ->
  In (NumEpochs n) (members (fst (run_evals t envs))).
Proof.
  revert t. induction envs as [|[e ms] envs IH]; intros t Hin; simpl.
  - assumption.
  - pose proof (eval_keeps_NumEpochs e ms t n Hin) as H1.
    destruct (eval e ms t) as [t1 b]. simpl in H1.
    specialize (IH t1 H1). destruct (run_evals t1 envs). assumption.
Qed.

Lemma run_evals_Any envs ts :
  exists ts', fst (run_evals (Any ts) envs) = Any ts'.
Proof.
  revert ts. induction envs as [|[e ms] envs IH]; intros ts; simpl.
  - eauto.
  - destruct (IH (map fst (map (eval e ms) ts))) as [ts' Hts'].
    destruct (run_evals _ envs). simpl in Hts'. eauto.
Qed.

(** C5. The composite fires at an evaluation exactly when at least one
    of its members fires there.  An epoch-count trigger fires exactly
    when the completed-epoch counter has reached its maximum, so a
    composite that was built with one among its members, whatever
    evaluations it has been through, fires at the epoch boundary where
    the counter reaches that maximum, and at that boundary the
    epoch-count member fires for the first time. *)
Theorem any_fires_iff_member_fires
    (ts : list trigger) (epochs : Z) (ms : meter_ref -> spec_float) :
  (fires epochs ms (Any ts) = true <->
   exists t, In t ts /\ fires epochs ms t = true) /\
  (forall n, fires epochs ms (NumEpochs n) = true <-> (n <= epochs)%Z) /\
  (forall n envs,
      In (NumEpochs n) ts -> epochs = n ->
      fires epochs ms (fst (run_evals (Any ts) envs)) = true /\
      forall earlier, (earlier < epochs)%Z ->
                      fires earlier ms (NumEpochs n) = false).
Proof.
  split; [apply fires_Any|]. split.
  - intros n. unfold fires. simpl. apply Z.leb_le.
  - intros n envs Hin ->. split.
    + destruct (run_evals_Any envs ts) as [ts' Hts'].
      pose proof (run_evals_keeps_NumEpochs envs (Any ts) n Hin) as Hk.
      rewrite Hts' in *. simpl in Hk.
      apply fires_Any. exists (NumEpochs n). split; [assumption|].
      unfold fires. simpl. apply Z.leb_refl.
    + intros earlier Hlt. unfold fires. simpl. apply Z.leb_gt. assumption.
Qed.

End TriggerClaims.

(** ** The script *)

Section MainClaims.
Context {OS : OsPath} {T : Torch}.
Import Triggers.

Lemma truthy_not_zero f :
  PyFloat.truthy f = negb (SFeqb f (S754_zero false)).
Proof. destruct f as [s|s| |s m e]; try destruct s; reflexivity. Qed.

Lemma early_stop_triggers_shape args :
  early_stop_triggers args =
    match max_epochs args with
    | Some n => if (0 <? n)%Z then [NumEpochs n] else []
    | None => []
    end ++
    match valid_cer_std_window_size args, valid_cer_std_threshold args with
    | Some W, Some thr =>
        if negb (W =? 0)%Z && negb (SFeqb thr (S754_zero false))
        then [MeterStandardDeviation valid_cer thr W []] else []
    | _, _ => []
    end.
Proof.
  unfold early_stop_triggers, int_truthy, float_truthy.
  assert (forall n : Z, negb (n =? 0)%Z && (n >? 0)%Z = (0 <? n)%Z) as Hpos.
  { intros n. destruct (Z.eqb_spec n 0), (Z.gtb_spec n 0), (Z.ltb_spec 0 n);
      simpl; try reflexivity; lia. }
  destruct (max_epochs args) as [n|];
    [rewrite Hpos; destruct (0 <? n)%Z|];
    (destruct (valid_cer_std_window_size args) as [W|];
     [|destruct (valid_cer_std_threshold args); reflexivity]);
    (destruct (valid_cer_std_threshold args) as [thr|]; [|reflexivity]);
    rewrite truthy_not_zero;
    destruct (negb (W =? 0)%Z && negb (SFeqb thr (S754_zero false)));
    reflexivity.
Qed.

(** C8. The list of early-stop triggers holds an epoch-count trigger
    exactly when [max_epochs] is set and greater than zero, and it is
    then [NumEpochs max_epochs]; it holds a metric-stability trigger
    exactly when the window size and the threshold of the validation
    CER are both set and nonzero, and it is then the one on
    [valid_cer] with that threshold, that window size and an empty
    window.  With a window size of 0 or a threshold of 0 the composite
    has no metric-stability member. *)
Theorem early_stop_triggers_registered (args : Args) :
  ((exists t, In t (early_stop_triggers args) /\ is_NumEpochs t) <->
   (exists n, max_epochs args = Some n /\ (0 < n)%Z)) /\
  (forall n, In (NumEpochs n) (early_stop_triggers args) ->
             max_epochs args = Some n) /\
  ((exists t, In t (early_stop_triggers args)
              /\ is_MeterStandardDeviation t) <->
   (exists W thr, valid_cer_std_window_size args = Some W /\ W <> 0%Z /\
                  valid_cer_std_threshold args = Some thr /\
                  SFeqb thr (S754_zero false) = false)) /\
  (forall m thr W vals,
      In (MeterStandardDeviation m thr W vals) (early_stop_triggers args) ->
      m = valid_cer /\ vals = [] /\
      valid_cer_std_window_size args = Some W /\
      valid_cer_std_threshold args = Some thr) /\
  (valid_cer_std_window_size args = Some 0%Z \/
   (exists s, valid_cer_std_threshold args = Some (S754_zero s)) ->
   forall t, In t (members (Any (early_stop_triggers args))) ->
             ~ is_MeterStandardDeviation t).
Proof.
  rewrite early_stop_triggers_shape.
  destruct args as [me ws th sc lc]. simpl.
  destruct me as [n|]; [destruct (Z.ltb_spec 0 n)|];
    (destruct ws as [W|]; [destruct (Z.eqb_spec W 0)|]);
    (destruct th as [thr|];
     [destruct (SFeqb thr (S754_zero false)) eqn:Hz|]);
    simpl.
  all: repeat split.
  all: repeat match goal with
         | |- _ -> _ => intro
         | H : exists _, _ |- _ => destruct H
         | H : _ /\ _ |- _ => destruct H
         | H : _ \/ _ |- _ => destruct H
         | H : False |- _ => destruct H
         | H : Some _ = Some _ |- _ => injection H as H
         | H : Some _ = None |- _ => discriminate H
         | H : None = Some _ |- _ => discriminate H
         | H : NumEpochs _ = NumEpochs _ |- _ => injection H as H
         | H : MeterStandardDeviation _ _ _ _
               = MeterStandardDeviation _ _ _ _ |- _ =>
             injection H as ? ? ? ?
         | H : NumEpochs _ = MeterStandardDeviation _ _ _ _ |- _ =>
             discriminate H
         | H : MeterStandardDeviation _ _ _ _ = NumEpochs _ |- _ =>
             discriminate H
         end; subst; simpl in *; try tauto; try congruence; try lia.
  all: try (eexists; split; [left; reflexivity|exact I]).
  all: try (eexists; split; [right; left; reflexivity|exact I]).
  all: try (eexists; split; [reflexivity|lia]).
  all: try (eexists _, _; repeat split; (reflexivity || assumption)).
  all: destruct x; discriminate Hz.
Qed.

(** *** Loading and saving checkpoints *)

Lemma load_step_dict args path items m o w :
  load_checkpoint args = Some path -> str_truthy path = true ->
  files w !! path = Some (PDict items) ->
  load_checkpoint_step args m o w =
    let lw := loading_world path w in
    match items !! "model", items !! "optimizer" with
    | Some sm, Some so =>
        match load_state_dict m sm with
        | inl e => (inl e, lw)
        | inr m' =>
            match optim_load_state_dict o so with
            | inl e => (inl e, lw)
            | inr o' => (inr (m', o'), lw)
            end
        end
    | _, _ =>
        match load_state_dict m (PDict items) with
        | inl e => (inl e, lw)
        | inr m' => (inr (m', o), lw)
        end
    end.
Proof.
  intros Hp Ht Hf. unfold load_checkpoint_step. rewrite Hp, Ht.
  unfold bind, log_loading, torch_load, lift, ret, loading_world. simpl.
  rewrite Hf. simpl.
  destruct (items !! "model") as [sm|] eqn:Hm; simpl;
    [destruct (items !! "optimizer") as [so|] eqn:Ho; simpl|].
  - reflexivity.
  - destruct (load_state_dict m (PDict items)); reflexivity.
  - destruct (load_state_dict m (PDict items)); reflexivity.
Qed.

(** C9. A record loaded at startup that lacks the key ['model'] or the
    key ['optimizer'] is handed whole to [model.load_state_dict], and the
    optimizer that comes out is the one that went in; a record with both
    keys has its two entries loaded into the model and the optimizer. *)
Theorem record_without_both_keys_loads_model_only
    (args : Args) (path : string) (items : gmap string pyobj)
    (m : module) (o : optimizer) (w : world) :
  load_checkpoint args = Some path -> str_truthy path = true ->
  files w !! path = Some (PDict items) ->
  (items !! "model" = None \/ items !! "optimizer" = None ->
   load_checkpoint_step args m o w =
     match load_state_dict m (PDict items) with
     | inl e => (inl e, loading_world path w)
     | inr m' => (inr (m', o), loading_world path w)
     end) /\
  (forall sm so,
      items !! "model" = Some sm -> items !! "optimizer" = Some so ->
      load_checkpoint_step args m o w =
        match load_state_dict m sm with
        | inl e => (inl e, loading_world path w)
        | inr m' =>
            match optim_load_state_dict o so with
            | inl e => (inl e, loading_world path w)
            | inr o' => (inr (m', o'), loading_world path w)
            end
        end).
Proof.
  intros Hp Ht Hf. rewrite (load_step_dict _ _ _ _ _ _ Hp Ht Hf). cbv zeta.
  split.
  - intros [Hm|Ho].
    + rewrite Hm. reflexivity.
    + rewrite Ho. destruct (items !! "model"); reflexivity.
  - intros sm so Hm Ho. rewrite Hm, Ho. reflexivity.
Qed.

Lemma load_saved_record args path sm so m0 o0 m1 o1 w :
  load_checkpoint args = Some path -> str_truthy path = true ->
  files w !! path = Some (checkpoint_record sm so) ->
  load_state_dict m0 sm = inr m1 ->
  optim_load_state_dict o0 so = inr o1 ->
  load_checkpoint_step args m0 o0 w = (inr (m1, o1), loading_world path w).
Proof.
  intros Hp Ht Hf Hm Ho. unfold checkpoint_record in Hf.
  rewrite (load_step_dict _ _ _ _ _ _ Hp Ht Hf). cbv zeta.
  rewrite lookup_insert_eq.
  rewrite lookup_insert_ne by discriminate. rewrite lookup_insert_eq.
  rewrite Hm, Ho. reflexivity.
Qed.

(** C7. A checkpoint record saved from a trainer, by the save after
    training or by the hook, and loaded at startup from the same path
    into a model and an optimizer that accept the saved states, leaves
    the model with the state dictionary that was saved and the optimizer
    with the optimizer state that was saved. *)
Theorem checkpoint_round_trip {L : TorchLaws T}
    (args_load : Args) (path : string) (t : Trainer)
    (m0 m1 : module) (o0 o1 : optimizer) (w : world) :
  load_checkpoint args_load = Some path -> str_truthy path = true ->
  load_state_dict m0 (state_dict (model t)) = inr m1 ->
  optim_load_state_dict o0 (optim_state_dict (optimizer_of t)) = inr o1 ->
  (forall args_save, save_checkpoint args_save = path ->
     exists w1 w2,
       final_save args_save t w = (inr tt, w1) /\
       load_checkpoint_step args_load m0 o0 w1 = (inr (m1, o1), w2)) /\
  (forall h, _filename h = path ->
     exists w1 w2,
       _save h (state_dict (model t))
               (optim_state_dict (optimizer_of t)) w = (inr tt, w1) /\
       load_checkpoint_step args_load m0 o0 w1 = (inr (m1, o1), w2)) /\
  state_dict m1 = state_dict (model t) /\
  optim_state_dict o1 = optim_state_dict (optimizer_of t).
Proof.
  intros Hp Ht Hm Ho. repeat split.
  - intros args_save Hs. unfold final_save. rewrite Hs, Ht.
    eexists _, _. split; [reflexivity|].
    eapply load_saved_record; try eassumption.
    simpl. apply lookup_insert_eq.
  - intros h Hs. unfold _save. rewrite Hs.
    eexists _, _. split; [reflexivity|].
    eapply load_saved_record; try eassumption.
    simpl. apply lookup_insert_eq.
  - eapply load_state_dict_installs. eassumption.
  - eapply optim_load_state_dict_installs. eassumption.
Qed.

(** *** The save after training *)

Context {E : Engine}.


End MainClaims.

(** ** The properties at work on concrete runs *)

Module Runs.
Import Triggers Examples PyFloat.

#[local] Existing Instance flat_os.
#[local] Existing Instance dict_torch.

Lemma dict_torch_laws : TorchLaws dict_torch.
Proof.
  split; intros m d m'; simpl; unfold load_dict;
    destruct d; intros H; inversion H; reflexivity.
Defined.

(** Over the epochs 0.5, 0.2, 0.3 the record ends at their minimum. *)
Lemma lowest_is_running_minimum_run :
  exists h0 w0 h w,
    __init__ 0%nat "model.ckpt-valid-lowest-cer" empty_world = (inr h0, w0)
    /\ observe_all h0 three_epochs w0 = (inr h, w)
    /\ is_minimum (_lowest h) (map snd three_epochs).
Proof.
  destruct (lowest_is_running_minimum 0%nat "model.ckpt-valid-lowest-cer"
              empty_world three_epochs)
    as (h0 & w0 & h & w & Hi & _ & Ha & _ & _ & _ & Hmin & _).
  exists h0, w0, h, w. split; [exact Hi|]. split; [exact Ha|].
  apply Hmin; [repeat constructor | discriminate].
Defined.

(** After 0.5, 0.2, 0.3 a value of 0.05 is written, being below each. *)
Lemma checkpoint_written_iff_strictly_lower_run :
  exists h0 w0 h w h' w',
    __init__ 0%nat "model.ckpt-valid-lowest-cer" empty_world = (inr h0, w0)
    /\ observe_all h0 three_epochs w0 = (inr h, w)
    /\ __call__ h (CTrainer (trainer_at 4)) (world_reading f0_05)
       = (inr h', w')
    /\ (written (world_reading f0_05) w' <->
        Forall (fun p => lt f0_05 p = true) (map snd three_epochs)).
Proof.
  destruct (checkpoint_written_iff_strictly_lower 0%nat
              "model.ckpt-valid-lowest-cer" empty_world three_epochs
              (trainer_at 4) (world_reading f0_05))
    as (h0 & w0 & h & w & h' & w' & Hi & Ha & Hc & _ & _ & _ & _ & Hiff).
  exists h0, w0, h, w, h', w'.
  split; [exact Hi|]. split; [exact Ha|]. split; [exact Hc|].
  apply Hiff; [repeat constructor | discriminate].
Defined.

(** A first value of [+inf] is below every value seen before, there
    being none, and is not written; after a NaN, a value of 0.5 is
    written although it is not below the NaN. *)
Lemma written_iff_below_all_seen_fails :
  ~ written_iff_below_all_seen (OS := flat_os) (T := dict_torch)
      0%nat "model.ckpt-valid-lowest-cer" empty_world
      [] (trainer_at 1) (world_reading inf)
  /\ ~ written_iff_below_all_seen (OS := flat_os) (T := dict_torch)
        0%nat "model.ckpt-valid-lowest-cer" empty_world
        [(trainer_at 1, S754_nan)] (trainer_at 2) (world_reading f0_50).
Proof.
  split; intros Hclaim.
  - specialize (Hclaim
                  (mkHook 0%nat inf "model.ckpt-valid-lowest-cer") empty_world
                  (mkHook 0%nat inf "model.ckpt-valid-lowest-cer") empty_world
                  (mkHook 0%nat inf "model.ckpt-valid-lowest-cer")
                  (emit (EvReadMeter 0%nat) (world_reading inf))
                  eq_refl eq_refl eq_refl).
    destruct Hclaim as [_ Hwrite].
    apply (Hwrite (List.Forall_nil _)). reflexivity.
  - specialize (Hclaim
                  (mkHook 0%nat inf "model.ckpt-valid-lowest-cer") empty_world
                  (mkHook 0%nat inf "model.ckpt-valid-lowest-cer")
                  (emit (EvReadMeter 0%nat)
                        (set_meter 0%nat S754_nan empty_world))
                  (mkHook 0%nat f0_50 "model.ckpt-valid-lowest-cer")
                  (saved_world
                     (mkHook 0%nat inf "model.ckpt-valid-lowest-cer")
                     (trainer_at 2) (world_reading f0_50))
                  eq_refl eq_refl eq_refl).
    destruct Hclaim as [Hbelow _].
    specialize (Hbelow (written_saved_world _ _ _)).
    inversion Hbelow as [|x l Hnan _]. vm_compute in Hnan.
    discriminate Hnan.
Qed.

(** An evaluator calling the hook gets the assertion error. *)
Lemma call_asserts_trainer_run :
  __call__ (mkHook 0%nat inf "model.ckpt-valid-lowest-cer") CEvaluator
           empty_world
  = (inl AssertionError, empty_world).
Proof.
  apply (call_asserts_trainer
           (mkHook 0%nat inf "model.ckpt-valid-lowest-cer") CEvaluator
           empty_world).
  intros t. discriminate.
Defined.

(** The scenario's trigger is silent after two values.  After four it
    does not fire, and the deviation of 0.20, 0.05, 0.04 is above the
    threshold; after five it fires, and the deviation of 0.05, 0.04,
    0.045 is within it. *)
Lemma stability_trigger_fires_iff_run :
  List.last (snd (feed (MeterStandardDeviation 0%nat f0_01 3 [])
                       ([f0_50] ++ [f0_20]))) false = false
  /\ ~ std_at_or_below [f0_20; f0_05; f0_04] f0_01
  /\ List.last (snd (feed (MeterStandardDeviation 0%nat f0_01 3 [])
                          ([f0_50; f0_20; f0_05; f0_04] ++ [f0_045])))
               false = true
  /\ std_at_or_below [f0_05; f0_04; f0_045] f0_01.
Proof.
  pose proof (TriggerClaims.stability_trigger_fires_iff
                0%nat f0_01 3 [f0_50] f0_20) as [Hfew _].
  pose proof (TriggerClaims.stability_trigger_fires_iff
                0%nat f0_01 3 [f0_50; f0_20; f0_05] f0_04)
    as [_ Hfour].
  pose proof (TriggerClaims.stability_trigger_fires_iff
                0%nat f0_01 3 [f0_50; f0_20; f0_05; f0_04] f0_045)
    as [_ Hfive].
  destruct (Hfour [f0_50] [f0_20; f0_05; f0_04] eq_refl eq_refl)
    as [_ Hfour_fires].
  destruct (Hfive [f0_50; f0_20] [f0_05; f0_04; f0_045] eq_refl eq_refl)
    as [Hfive_std _].
  assert (List.last (snd (feed (MeterStandardDeviation 0%nat f0_01 3 [])
                               ([f0_50; f0_20; f0_05; f0_04] ++ [f0_045])))
                    false = true) as Hfired
      by (vm_compute; reflexivity).
  split; [|split; [|split]].
  - apply Hfew. rewrite length_app. simpl. lia.
  - intros Hstd. apply Hfour_fires in Hstd. vm_compute in Hstd.
    discriminate Hstd.
  - exact Hfired.
  - exact (Hfive_std Hfired).
Defined.

(** A composite of the scenario's trigger and [NumEpochs 3] fires at the
    third epoch boundary, whatever it went through before. *)
Lemma any_fires_iff_member_fires_run :
  fires 3 (fun _ => f0_50)
    (fst (run_evals (Any [scenario_trigger; NumEpochs 3])
            [(1%Z, fun _ => f0_50); (2%Z, fun _ => f0_20)])) = true.
Proof.
  destruct (TriggerClaims.any_fires_iff_member_fires
              [scenario_trigger; NumEpochs 3] 3 (fun _ => f0_50))
    as (_ & _ & Hn).
  destruct (Hn 3%Z [(1%Z, fun _ => f0_50); (2%Z, fun _ => f0_20)]
              (or_intror (or_introl eq_refl)) eq_refl) as [Hfires _].
  exact Hfires.
Defined.

(** With a window size of 0 only the epoch-count trigger is registered. *)
Lemma early_stop_triggers_registered_run :
  max_epochs (args_saving_to 20 "model.ckpt") = Some 20%Z /\
  forall t, In t (members (Any (early_stop_triggers
                                  (args_saving_to 20 "model.ckpt")))) ->
            ~ is_MeterStandardDeviation t.
Proof.
  destruct (early_stop_triggers_registered (args_saving_to 20 "model.ckpt"))
    as (_ & Hn & _ & _ & Hnone).
  split.
  - apply Hn. simpl. left. reflexivity.
  - apply Hnone. left. reflexivity.
Defined.

(** A file holding a bare state dictionary is loaded into the model; the
    optimizer stays as it was. *)
Lemma record_without_both_keys_loads_model_only_run :
  load_checkpoint_step (T := dict_torch) (args_loading "old.ckpt")
                       (net 0) (sgd 0)
                       world_with_old_checkpoint
  = (inr (net 7, sgd 0), loading_world "old.ckpt" world_with_old_checkpoint).
Proof.
  destruct (record_without_both_keys_loads_model_only (T := dict_torch)
              (args_loading "old.ckpt") "old.ckpt"
              {[ "linear.weight" := tensor 7 ]} (net 0) (sgd 0)
              world_with_old_checkpoint eq_refl eq_refl eq_refl)
    as [Hpart _].
  apply Hpart. left. reflexivity.
Defined.

(** The checkpoint saved after training loads back into a fresh model
    and optimizer. *)
Lemma checkpoint_round_trip_run :
  exists w1 w2,
    final_save (args_saving_to 20 "model.ckpt") (trainer_at 5) empty_world
    = (inr tt, w1)
    /\ load_checkpoint_step (T := dict_torch) (args_loading "model.ckpt")
                            (net 0) (sgd 0) w1
       = (inr (net 5, sgd 5), w2).
Proof.
  destruct (checkpoint_round_trip (T := dict_torch) (L := dict_torch_laws)
              (args_loading "model.ckpt") "model.ckpt" (trainer_at 5)
              (net 0) (net 5) (sgd 0) (sgd 5) empty_world
              eq_refl eq_refl eq_refl eq_refl)
    as (Hfinal & _).
  apply (Hfinal (args_saving_to 20 "model.ckpt")). reflexivity.
Defined.



End Runs.

(** ** More on the checkpoint hook *)

Section HookRuns.
Context {OS : OsPath} {T : Torch}.
Import PyFloat PyFloatFacts.

(** One epoch end, by cases on the comparison. *)
Lemma observe_cases self t v w :
  observe self (CTrainer t) v w =
    if lt v (_lowest self)
    then (inr (mkHook (_meter self) v (_filename self)),
          saved_world self t (set_meter (_meter self) v w))
    else (inr self,
          emit (EvReadMeter (_meter self)) (set_meter (_meter self) v w)).
Proof.
  unfold observe. destruct (lt v (_lowest self)) eqn:Hlt.
  - rewrite call_lower; rewrite meters_set_meter; [reflexivity|assumption].
  - rewrite call_not_lower; [reflexivity|].
    rewrite meters_set_meter. assumption.
Qed.

Lemma observe_all_app self l1 l2 w :
  observe_all self (l1 ++ l2) w =
    match observe_all self l1 w with
    | (inr h1, w1) => observe_all h1 l2 w1
    | (inl e, w1) => (inl e, w1)
    end.
Proof.
  revert self w. induction l1 as [|[t v] l1 IH]; intros self w; simpl.
  - reflexivity.
  - unfold bind. destruct (observe self (CTrainer t) v w) as [[e|h1] w1].
    + reflexivity.
    + apply IH.
Qed.

Lemma observe_all_snoc self l t v w h1 w1 :
  observe_all self l w = (inr h1, w1) ->
  observe_all self (l ++ [(t, v)]) w = observe h1 (CTrainer t) v w1.
Proof.
  intros Hl. rewrite observe_all_app, Hl.
  change (observe_all h1 [(t, v)] w1)
    with (bind (observe h1 (CTrainer t) v) (fun s => ret s) w1).
  unfold bind.
  destruct (observe h1 (CTrainer t) v w1) as [[e|h2] w2]; reflexivity.
Qed.

(** Where the best checkpoint comes from: either no value went below
    the starting record and the files are as they were, or the epochs
    split at the one that set the final record, whose states the file
    holds. *)
Lemma best_checkpoint_split h0 epochs w0 h w :
  observe_all h0 epochs w0 = (inr h, w) ->
  (_lowest h = _lowest h0 /\ files w = files w0 /\
   Forall (fun p => lt p (_lowest h0) = false) (map snd epochs)) \/
  (exists pre t v post,
      epochs = pre ++ (t, v) :: post /\ _lowest h = v /\
      lt v (fold_left lower (map snd pre) (_lowest h0)) = true /\
      Forall (fun p => lt p v = false) (map snd post) /\
      files w !! _filename h0
      = Some (checkpoint_record (state_dict (model t))
                                (optim_state_dict (optimizer_of t)))).
Proof.
  revert h w. induction epochs as [|[t v] l IH] using rev_ind; intros h w.
  - simpl. unfold ret. intros H. injection H as <- <-. left. auto.
  - destruct (observe_all_lowest h0 l w0) as (h1 & w1 & Hl & Hm & Hf & Hlow).
    rewrite (observe_all_snoc _ _ _ _ _ _ _ Hl), observe_cases.
    specialize (IH h1 w1 Hl).
    destruct (lt v (_lowest h1)) eqn:Hlt; intros H; injection H as <- <-.
    + right. exists l, t, v, []. repeat split.
      * simpl. rewrite <- Hlow. assumption.
      * constructor.
      * simpl. rewrite Hf. apply lookup_insert_eq.
    + destruct IH
        as [(He & Hfiles & Hall)|
            (pre & t0 & v0 & post & Hsplit & Hv0 & Hbelow & Hpost & Hfile)].
      * left. split; [assumption|]. split; [assumption|].
        rewrite map_app. apply Forall_app. split; [assumption|].
        repeat constructor. simpl. rewrite <- He. assumption.
      * right. exists pre, t0, v0, (post ++ [(t, v)]). repeat split.
        -- rewrite Hsplit, <- app_assoc. reflexivity.
        -- assumption.
        -- assumption.
        -- rewrite map_app. apply Forall_app. split; [assumption|].
           repeat constructor. simpl. rewrite <- Hv0. assumption.
        -- assumption.
Qed.

(** X1. After any sequence of epochs, the file of a hook built by
    [__init__] holds the states of the trainer at the epoch that set the
    record, under the keys ['model'] and ['optimizer']: its value is the
    record, it was strictly below the record of
    all epochs before it, and no later value is strictly below it.  When
    no value was below [+inf] the record is still [+inf] and no file has
    changed. *)
Theorem best_checkpoint_holds_best_epoch
    (meter : meter_ref) (filename : string) (w_init : world)
    (epochs : list (Trainer * spec_float)) :
  exists h0 w0 h w,
    __init__ meter filename w_init = (inr h0, w0) /\
    observe_all h0 epochs w0 = (inr h, w) /\
    _filename h = normpath filename /\
    ((_lowest h = inf /\ files w = files w_init /\
      Forall (fun p => lt p inf = false) (map snd epochs)) \/
     (exists pre t v post,
         epochs = pre ++ (t, v) :: post /\ _lowest h = v /\
         lt v (running_min (map snd pre)) = true /\
         Forall (fun p => lt p v = false) (map snd post) /\
         files w !! normpath filename
         = Some (checkpoint_record (state_dict (model t))
                                   (optim_state_dict (optimizer_of t))) /\
         holds_states (checkpoint_record (state_dict (model t))
                                         (optim_state_dict (optimizer_of t)))
                      (state_dict (model t))
                      (optim_state_dict (optimizer_of t)))).
Proof.
  destruct (init_fresh meter filename w_init)
    as (h0 & w0 & Hi & Hm0 & Hl0 & Hf0 & Hfiles0 & _).
  destruct (observe_all_lowest h0 epochs w0) as (h & w & Ha & _ & Hf & _).
  exists h0, w0, h, w. split; [assumption|]. split; [assumption|].
  split; [congruence|].
  destruct (best_checkpoint_split _ _ _ _ _ Ha) as [(He & Hfl & Hall)|Hsplit].
  - left. rewrite Hl0 in *. rewrite Hfl, Hfiles0. auto.
  - right. rewrite Hl0, Hf0 in Hsplit.
    destruct Hsplit as (pre & t & v & post & H1 & H2 & H3 & H4 & H5).
    exists pre, t, v, post. repeat split; try assumption;
      apply checkpoint_record_holds_states.
Qed.

(** X2. A hook called at the end of any sequence of epochs changes no
    file but its own, creates no directory, and touches no meter: the
    meters differ from before only where the engine set the hook's
    meter. *)
Theorem hook_touches_only_its_file
    (h0 : SaveModelCheckpointHook) (epochs : list (Trainer * spec_float))
    (w0 : world) :
  exists h w,
    observe_all h0 epochs w0 = (inr h, w) /\
    dirs w = dirs w0 /\
    (forall p, p <> _filename h0 -> files w !! p = files w0 !! p) /\
    (forall m, m <> _meter h0 -> meters w m = meters w0 m).
Proof.
  revert h0 w0. induction epochs as [|[t v] l IH]; intros h0 w0.
  - exists h0, w0. simpl. auto.
  - change (observe_all h0 ((t, v) :: l) w0)
      with (bind (observe h0 (CTrainer t) v)
                 (fun s => observe_all s l) w0).
    unfold bind. rewrite observe_cases.
    destruct (lt v (_lowest h0)) eqn:Hlt.
    + destruct (IH (mkHook (_meter h0) v (_filename h0))
                   (saved_world h0 t (set_meter (_meter h0) v w0)))
        as (h & w & Ha & Hd & Hf & Hm).
      exists h, w. split; [assumption|]. simpl in *.
      split; [assumption|]. split.
      * intros p Hp. rewrite (Hf p Hp). apply lookup_insert_ne. congruence.
      * intros m Hne. rewrite (Hm m Hne).
        destruct (Nat.eqb_spec m (_meter h0)); [contradiction|reflexivity].
    + destruct (IH h0 (emit (EvReadMeter (_meter h0))
                            (set_meter (_meter h0) v w0)))
        as (h & w & Ha & Hd & Hf & Hm).
      exists h, w. split; [assumption|]. simpl in *.
      split; [assumption|]. split; [assumption|].
      intros m Hne. rewrite (Hm m Hne).
      destruct (Nat.eqb_spec m (_meter h0)); [contradiction|reflexivity].
Qed.

Lemma strictly_decreasing_cons v l :
  Forall (fun x => lt x v = true) l -> strictly_decreasing l = true ->
  strictly_decreasing (v :: l) = true.
Proof.
  intros Hall Hl. destruct l as [|b l]; [reflexivity|].
  inversion Hall as [|? ? Hb _]; subst.
  change (lt b v && strictly_decreasing (b :: l) = true).
  rewrite Hb, Hl. reflexivity.
Qed.

Lemma last_cons_below (v : spec_float) ls d :
  List.last (v :: ls) d = List.last ls v.
Proof.
  revert v d. induction ls as [|a ls IH]; intros v d; [reflexivity|].
  change (List.last (a :: ls) d = List.last (a :: ls) v).
  rewrite (IH a d), (IH a v). reflexivity.
Qed.

(** X3. The values a hook logs over a run are strictly decreasing, each
    is a value of one of the epochs and below the record the hook
    started with, and the last is the final record; with each logged
    value goes exactly one write, to the hook's own path. *)
Theorem logged_values_strictly_decrease
    (h0 : SaveModelCheckpointHook) (epochs : list (Trainer * spec_float))
    (w0 : world) :
  exists h w ls,
    observe_all h0 epochs w0 = (inr h, w) /\
    logged (trace w) = logged (trace w0) ++ ls /\
    map fst (saves (trace w))
    = map fst (saves (trace w0)) ++ map (fun _ => _filename h0) ls /\
    strictly_decreasing ls = true /\
    Forall (fun x => lt x (_lowest h0) = true) ls /\
    Forall (fun x => In x (map snd epochs)) ls /\
    _lowest h = List.last ls (_lowest h0).
Proof.
  revert h0 w0. induction epochs as [|[t v] l IH]; intros h0 w0.
  - exists h0, w0, []. simpl. rewrite !app_nil_r. repeat split; constructor.
  - change (observe_all h0 ((t, v) :: l) w0)
      with (bind (observe h0 (CTrainer t) v)
                 (fun s => observe_all s l) w0).
    unfold bind. rewrite observe_cases.
    destruct (lt v (_lowest h0)) eqn:Hlt.
    + destruct (IH (mkHook (_meter h0) v (_filename h0))
                   (saved_world h0 t (set_meter (_meter h0) v w0)))
        as (h & w & ls & Ha & Hlog & Hsv & Hdec & Hbelow & Hin & Hlast).
      exists h, w, (v :: ls). split; [assumption|].
      unfold saved_world in Hlog, Hsv. cbn [trace set_meter] in Hlog, Hsv.
      rewrite meters_set_meter, logged_app in Hlog.
      rewrite saves_app, map_app in Hsv.
      cbn [logged saves map fst _filename _lowest] in Hlog, Hsv, Hbelow, Hlast.
      rewrite <- app_assoc in Hlog, Hsv.
      split; [exact Hlog|]. split; [exact Hsv|].
      split; [apply strictly_decreasing_cons; assumption|].
      split; [|split].
      * constructor; [assumption|].
        eapply Forall_impl; [exact Hbelow|].
        intros x Hx. simpl in Hx. exact (lt_trans _ _ _ Hx Hlt).
      * constructor; [left; reflexivity|].
        eapply Forall_impl; [exact Hin|]. intros x Hx. right. exact Hx.
      * rewrite Hlast. symmetry. apply last_cons_below.
    + destruct (IH h0 (emit (EvReadMeter (_meter h0))
                            (set_meter (_meter h0) v w0)))
        as (h & w & ls & Ha & Hlog & Hsv & Hdec & Hbelow & Hin & Hlast).
      exists h, w, ls. split; [assumption|].
      cbn [trace emit set_meter] in Hlog, Hsv.
      rewrite logged_app in Hlog. rewrite saves_app in Hsv.
      cbn [logged saves] in Hlog, Hsv. rewrite !app_nil_r in Hlog, Hsv.
      repeat split; try assumption.
      eapply Forall_impl; [exact Hin|]. intros x Hx. right. exact Hx.
Qed.

End HookRuns.

Section HookEdges.
Context {OS : OsPath} {T : Torch}.
Import PyFloat PyFloatFacts.

(** X4. Whenever building a hook returns (that is, [os.makedirs], if
    it was called, did not raise): the hook has the given meter, the
    record [+inf] and the normalised path; no file and no meter has
    changed; [os.makedirs] was called exactly when the directory of the
    normalised path is named and did not exist, and otherwise the world
    is untouched; that directory, when named, now exists and the
    directories there were remain; and building a second hook for the
    same path calls [os.makedirs] no more: it returns and changes
    nothing. *)
Theorem init_makes_directory_once
    (meter meter' : meter_ref) (filename : string) (w : world)
    (h : SaveModelCheckpointHook) (w' : world) :
  __init__ meter filename w = (inr h, w') ->
  let dir := dirname (normpath filename) in
  h = mkHook meter inf (normpath filename) /\
  files w' = files w /\ meters w' = meters w /\
  (trace w' =
     if str_truthy dir && negb (path_exists dir w)
     then trace w ++ [EvMakedirs dir] else trace w) /\
  (str_truthy dir && negb (path_exists dir w) = false -> w' = w) /\
  (str_truthy dir = true -> path_exists dir w' = true) /\
  (forall d, d ∈ dirs w -> d ∈ dirs w') /\
  __init__ meter' filename w'
  = (inr (mkHook meter' inf (normpath filename)), w').
Proof.
  cbv zeta. unfold __init__. cbn [_filename].
  destruct (str_truthy (dirname (normpath filename))) eqn:Ht;
    [destruct (path_exists (dirname (normpath filename)) w) eqn:He|];
    cbn [andb negb]; intros Hinit.
  - injection Hinit as <- <-. rewrite He. cbn [andb negb].
    repeat split; auto.
  - unfold bind, makedirs, ret in Hinit. injection Hinit as <- <-.
    assert (path_exists (dirname (normpath filename))
              (mkWorld (meters w) (files w)
                       ({[dirname (normpath filename)]} ∪ dirs w)
                       (trace w ++ [EvMakedirs (dirname (normpath filename))]))
            = true) as Hex.
    { unfold path_exists. cbn [dirs]. apply orb_true_iff. left.
      apply bool_decide_eq_true. set_solver. }
    rewrite Hex. cbn [andb negb files meters trace dirs].
    repeat split; auto; [discriminate|set_solver].
  - injection Hinit as <- <-.
    repeat split; auto. discriminate.
Qed.

(** X5. A second call of the hook while its meter still shows the same
    value never writes and leaves the hook as the first call left it,
    whatever the value (NaN and infinities included) and whichever
    trainers call. *)
Theorem second_call_same_value_writes_nothing
    (h : SaveModelCheckpointHook) (t t' : Trainer) (w : world) :
  exists h1 w1,
    __call__ h (CTrainer t) w = (inr h1, w1) /\
    forall w2, meters w2 (_meter h) = meters w (_meter h) ->
      __call__ h1 (CTrainer t') w2 = (inr h1, emit (EvReadMeter (_meter h)) w2)
      /\ ~ written w2 (emit (EvReadMeter (_meter h)) w2).
Proof.
  destruct (lt (meters w (_meter h)) (_lowest h)) eqn:Hlt.
  - rewrite (call_lower _ _ _ Hlt). eexists _, _. split; [reflexivity|].
    intros w2 Hsame. split; [|apply not_written_read].
    apply (call_not_lower
             (mkHook (_meter h) (meters w (_meter h)) (_filename h)) t' w2).
    cbn [_meter _lowest]. rewrite Hsame. apply lt_irrefl.
  - rewrite (call_not_lower _ _ _ Hlt). eexists _, _. split; [reflexivity|].
    intros w2 Hsame. split; [|apply not_written_read].
    apply call_not_lower. rewrite Hsame. assumption.
Qed.

Lemma le_antisym a b : le a b = true -> le b a = true -> SFeqb a b = true.
Proof. unfold le, SFleb, SFeqb, SFcompare. float_cases; cmp_cases. Qed.

Lemma is_minimum_perm m m' vs vs' :
  Permutation vs vs' -> is_minimum m vs -> is_minimum m' vs' ->
  SFeqb m m' = true.
Proof.
  intros Hp [Hin Hle] [Hin' Hle']. rewrite List.Forall_forall in Hle, Hle'.
  apply le_antisym.
  - apply Hle. apply (Permutation_in _ (Permutation_sym Hp)). assumption.
  - apply Hle'. apply (Permutation_in _ Hp). assumption.
Qed.

(** X6. The record does not depend on the order of the epochs: two hooks
    built fresh and run over the same values (numbers, no NaN) in any
    two orders end with records that compare equal. *)
Theorem record_independent_of_order
    (h0 h0' : SaveModelCheckpointHook)
    (epochs epochs' : list (Trainer * spec_float)) (w0 w0' : world) :
  _lowest h0 = inf -> _lowest h0' = inf ->
  Permutation (map snd epochs) (map snd epochs') ->
  Forall (fun v => is_nan v = false) (map snd epochs) ->
  exists h w h' w',
    observe_all h0 epochs w0 = (inr h, w) /\
    observe_all h0' epochs' w0' = (inr h', w') /\
    SFeqb (_lowest h) (_lowest h') = true.
Proof.
  intros Hl0 Hl0' Hperm Hnum.
  destruct (observe_all_lowest h0 epochs w0) as (h & w & Ha & _ & _ & Hl).
  destruct (observe_all_lowest h0' epochs' w0')
    as (h' & w' & Ha' & _ & _ & Hl').
  exists h, w, h', w'. split; [assumption|]. split; [assumption|].
  rewrite Hl, Hl', Hl0, Hl0'.
  destruct (map snd epochs) as [|v vs] eqn:Hvs.
  - apply Permutation_nil in Hperm. rewrite Hperm. reflexivity.
  - assert (map snd epochs' <> []) as Hne'.
    { intros He. rewrite He in Hperm.
      apply Permutation_sym, Permutation_nil in Hperm. discriminate. }
    assert (Forall (fun v => is_nan v = false) (map snd epochs')) as Hnum'.
    { rewrite List.Forall_forall in *. intros x Hx. apply Hnum.
      apply (Permutation_in _ (Permutation_sym Hperm)). assumption. }
    eapply is_minimum_perm; [exact Hperm| |].
    + apply fold_lower_minimum; [assumption|discriminate].
    + apply fold_lower_minimum; assumption.
Qed.

Lemma same_io_refl w : same_io w w.
Proof. unfold same_io. auto. Qed.

(** X7. Epochs whose value is NaN leave no mark: a run over the epochs
    and a run over the epochs without those of value NaN end with the
    same hook, the same files and directories, the same writes and the
    same logged values. *)
Theorem nan_epochs_are_ignored
    (h0 : SaveModelCheckpointHook) (epochs : list (Trainer * spec_float))
    (w0 w0' : world) :
  same_io w0 w0' ->
  exists h w w',
    observe_all h0 epochs w0 = (inr h, w) /\
    observe_all h0 (List.filter (fun e => negb (is_nan (snd e))) epochs) w0'
    = (inr h, w') /\
    same_io w w'.
Proof.
  revert h0 w0 w0'. induction epochs as [|[t v] l IH]; intros h0 w0 w0' Hio.
  - exists h0, w0, w0'. simpl. auto.
  - change (observe_all h0 ((t, v) :: l) w0)
      with (bind (observe h0 (CTrainer t) v)
                 (fun s => observe_all s l) w0).
    unfold bind at 1. rewrite observe_cases.
    cbn [List.filter snd]. destruct (is_nan v) eqn:Hnan; cbn [negb].
    + assert (lt v (_lowest h0) = false) as Hlt.
      { destruct (lt v (_lowest h0)) eqn:Hlt; [|reflexivity].
        apply lt_not_nan_l in Hlt. congruence. }
      rewrite Hlt. apply IH.
      destruct Hio as (Hf & Hd & Hs & Hg). unfold same_io. cbn.
      rewrite saves_app, logged_app. cbn. rewrite !app_nil_r. auto.
    + change (observe_all h0 ((t, v) :: List.filter _ l) w0')
        with (bind (observe h0 (CTrainer t) v)
                   (fun s => observe_all s
                               (List.filter (fun e => negb (is_nan (snd e))) l))
                   w0').
      unfold bind. rewrite observe_cases.
      destruct Hio as (Hf & Hd & Hs & Hg).
      destruct (lt v (_lowest h0)); apply IH; unfold same_io, saved_world;
        cbn; rewrite !saves_app, !logged_app; cbn;
        rewrite ?Nat.eqb_refl, ?app_nil_r; repeat split; congruence.
Qed.

End HookEdges.

(** ** More on the script *)

Section MainExtras.
Context {OS : OsPath} {T : Torch}.
Import Triggers PyFloat PyFloatFacts.

(** X8. Loading a checkpoint at startup only reads: whatever the file
    holds and whether or not loading succeeds, the files, directories and
    meters are as before and nothing is written or logged as a new
    lowest value.  Without [--load_checkpoint], or with the empty string,
    the step does nothing at all; with a path that names no file it
    raises [IOError] once the path has been logged. *)
Theorem load_checkpoint_only_reads
    (args : Args) (m : module) (o : optimizer) (w : world) :
  let r := load_checkpoint_step args m o w in
  (files (snd r) = files w /\ dirs (snd r) = dirs w /\
   meters (snd r) = meters w /\
   saves (trace (snd r)) = saves (trace w) /\
   logged (trace (snd r)) = logged (trace w)) /\
  (load_checkpoint args = None \/ load_checkpoint args = Some "" ->
   r = (inr (m, o), w)) /\
  (forall path,
      load_checkpoint args = Some path -> str_truthy path = true ->
      files w !! path = None ->
      r = (inl IOError, emit (EvLogLoading path) w)).
Proof.
  cbv zeta.
  assert (forall path,
             saves (trace (loading_world path w)) = saves (trace w) /\
             logged (trace (loading_world path w)) = logged (trace w))
    as Hlw.
  { intros path. unfold loading_world, emit. cbn [trace].
    rewrite !saves_app, !logged_app. cbn. rewrite !app_nil_r. auto. }
  assert (forall path,
             saves (trace (emit (EvLogLoading path) w)) = saves (trace w) /\
             logged (trace (emit (EvLogLoading path) w)) = logged (trace w))
    as Hlg.
  { intros path. unfold emit. cbn [trace].
    rewrite !saves_app, !logged_app. cbn. rewrite !app_nil_r. auto. }
  destruct (load_checkpoint args) as [path|] eqn:Hp.
  - destruct (str_truthy path) eqn:Ht.
    + destruct (files w !! path) as [[data|items]|] eqn:Hf.
      * assert (load_checkpoint_step args m o w
                = (inl TypeError, loading_world path w)) as ->.
        { unfold load_checkpoint_step. rewrite Hp, Ht.
          unfold bind, log_loading, torch_load, lift. cbn. rewrite Hf.
          reflexivity. }
        cbn [snd]. destruct (Hlw path) as [Hs1 Hs2]. repeat split; auto.
        -- intros [H|H]; [discriminate|]. injection H as ->. discriminate.
        -- intros path' H _ Hnone. injection H as <-. congruence.
      * rewrite (load_step_dict _ _ _ _ _ _ Hp Ht Hf). cbv zeta.
        assert (forall r : (exn + module * optimizer) * world,
                   snd r = loading_world path w ->
                   (files (snd r) = files w /\ dirs (snd r) = dirs w /\
                    meters (snd r) = meters w /\
                    saves (trace (snd r)) = saves (trace w) /\
                    logged (trace (snd r)) = logged (trace w))) as Hsnd.
        { intros r ->. destruct (Hlw path) as [Hs1 Hs2]. repeat split; auto. }
        split; [|split].
        -- apply Hsnd.
           destruct (items !! "model"); [destruct (items !! "optimizer")|];
             repeat match goal with
                    | |- context [match ?x with inl _ => _ | inr _ => _ end] =>
                        destruct x
                    end; reflexivity.
        -- intros [H|H]; [discriminate|]. injection H as ->. discriminate.
        -- intros path' H _ Hnone. injection H as <-. congruence.
      * assert (load_checkpoint_step args m o w
                = (inl IOError, emit (EvLogLoading path) w)) as ->.
        { unfold load_checkpoint_step. rewrite Hp, Ht.
          unfold bind, log_loading, torch_load. cbn. rewrite Hf.
          reflexivity. }
        cbn [snd]. destruct (Hlg path) as [Hs1 Hs2]. repeat split; auto.
        -- intros [H|H]; [discriminate|]. injection H as ->. discriminate.
        -- intros path' H _ _. injection H as <-. reflexivity.
    + assert (load_checkpoint_step args m o w = (inr (m, o), w)) as ->.
      { unfold load_checkpoint_step. rewrite Hp, Ht. reflexivity. }
      cbn [snd]. repeat split; auto.
      intros path' H Ht' _. injection H as <-. congruence.
  - assert (load_checkpoint_step args m o w = (inr (m, o), w)) as ->.
    { unfold load_checkpoint_step. rewrite Hp. reflexivity. }
    cbn [snd]. repeat split; auto. intros path' H. discriminate.
Qed.

(** X9. Resuming from the best checkpoint: after a run in which some
    value was below [+inf], the hook's file holds the record of the
    epoch that set the hook's record, the one whose value was strictly
    below the record of all epochs before it and which no later value
    went below; loading that file at startup hands the states of that
    epoch's trainer to the model and the optimizer, and when these
    accept them (and install what they are given) the states are
    restored. *)
Theorem resume_from_best_checkpoint {L : TorchLaws T}
    (meter : meter_ref) (filename : string) (w_init : world)
    (epochs : list (Trainer * spec_float))
    (args : Args) (m0 : module) (o0 : optimizer) :
  Exists (fun v => lt v inf = true) (map snd epochs) ->
  load_checkpoint args = Some (normpath filename) ->
  str_truthy (normpath filename) = true ->
  exists h0 w0 h w pre t v post,
    __init__ meter filename w_init = (inr h0, w0) /\
    observe_all h0 epochs w0 = (inr h, w) /\
    epochs = pre ++ (t, v) :: post /\ _lowest h = v /\
    lt v (running_min (map snd pre)) = true /\
    Forall (fun p => lt p v = false) (map snd post) /\
    files w !! normpath filename
    = Some (checkpoint_record (state_dict (model t))
                              (optim_state_dict (optimizer_of t))) /\
    forall m1 o1,
      load_state_dict m0 (state_dict (model t)) = inr m1 ->
      optim_load_state_dict o0 (optim_state_dict (optimizer_of t)) = inr o1 ->
      load_checkpoint_step args m0 o0 w
      = (inr (m1, o1), loading_world (normpath filename) w) /\
      state_dict m1 = state_dict (model t) /\
      optim_state_dict o1 = optim_state_dict (optimizer_of t).
Proof.
  intros Hsome Hp Ht.
  destruct (init_fresh meter filename w_init)
    as (h0 & w0 & Hi & Hm0 & Hl0 & Hf0 & _).
  destruct (observe_all_lowest h0 epochs w0) as (h & w & Ha & _ & _ & _).
  destruct (best_checkpoint_split _ _ _ _ _ Ha)
    as [(_ & _ & Hall)|
        (pre & t & v & post & Hsplit & Hv & Hbelow & Hpost & Hfile)].
  - exfalso. rewrite Hl0 in Hall.
    apply List.Exists_exists in Hsome as (x & Hin & Hx).
    rewrite List.Forall_forall in Hall. rewrite (Hall x Hin) in Hx.
    discriminate.
  - exists h0, w0, h, w, pre, t, v, post. rewrite Hf0 in Hfile.
    rewrite Hl0 in Hbelow.
    split; [assumption|]. split; [assumption|]. split; [assumption|].
    split; [assumption|]. split; [exact Hbelow|]. split; [assumption|].
    split; [assumption|]. intros m1 o1 Hm Ho.
    split; [|split].
    + eapply load_saved_record; eassumption.
    + eapply load_state_dict_installs. eassumption.
    + eapply optim_load_state_dict_installs. eassumption.
Qed.

Lemma length_append_string (s1 s2 : string) :
  String.length (s1 ++ s2)%string = (String.length s1 + String.length s2)%nat.
Proof.
  induction s1 as [|c s1 IH]; simpl; [reflexivity|]. rewrite IH. reflexivity.
Qed.

Context {E : Engine}.

(** X10. The save after training writes to [--save_checkpoint] and to no
    other path.  The hook's path, the option with [-valid-lowest-cer]
    appended, is never the option itself; so unless normalising that
    path gives the option back, the save after training leaves the best
    checkpoint as the run left it. *)
Theorem final_save_keeps_best_checkpoint
    (args : Args) (t : Trainer) (w : world) :
  (save_checkpoint args ++ "-valid-lowest-cer")%string
  <> save_checkpoint args /\
  (str_truthy (save_checkpoint args) = true ->
   normpath (save_checkpoint args ++ "-valid-lowest-cer")%string
   <> save_checkpoint args ->
   exists h w0,
     __init__ valid_cer
       (save_checkpoint args ++ "-valid-lowest-cer")%string w = (inr h, w0) /\
     forall t' w1,
       engine_run (Any (early_stop_triggers args)) [h] t w0 = (inr t', w1) ->
       exists w2,
         train args t w = (inr t', w2) /\
         files w2 !! _filename h = files w1 !! _filename h /\
         forall p, p <> save_checkpoint args ->
                   files w2 !! p = files w1 !! p).
Proof.
  split.
  - intros He. apply (f_equal String.length) in He.
    rewrite length_append_string in He. simpl in He. lia.
  - intros Hs Hne.
    destruct (init_fresh valid_cer
                (save_checkpoint args ++ "-valid-lowest-cer")%string w)
      as (h & w0 & Hi & _ & _ & Hf & _).
    exists h, w0. split; [assumption|]. intros t' w1 Hr.
    unfold train, final_save, bind. rewrite Hs, Hi. unfold ret.
    rewrite Hr. unfold torch_save. eexists. split; [reflexivity|].
    cbn [files]. split.
    + apply lookup_insert_ne. rewrite Hf. congruence.
    + intros p Hp. apply lookup_insert_ne. congruence.
Qed.

End MainExtras.

(** ** The output layer *)

Module WrapperFacts.
Import Wrappers.

(** X11. The module added as ['linear'], applied to what the BLSTM
    returns, a tuple whose first item is the packed output: the linear
    map is applied to the packed data alone and the result is packed
    with the batch sizes of the input, whatever follows in the tuple.
    On a tuple whose first item is a bare tensor, and on a bare tensor,
    the result of the linear map is packed as one sequence of its own
    length.  An empty tuple raises [IndexError]. *)
Theorem linear_keeps_batch_sizes {tensor : Type}
    (size0 : tensor -> Z) (packed_is_tuple : bool)
    (pack : pyval tensor -> list Z -> werr + pyval tensor)
    (linear : pyval tensor -> werr + pyval tensor) :
  let forward := linear_forward size0 packed_is_tuple pack linear in
  (forall data batch_sizes hidden,
      forward (VTuple (VPacked data batch_sizes :: hidden)) =
        match linear data with
        | inl e => inl e
        | inr y => inr (VPacked y batch_sizes)
        end) /\
  (forall x hidden y,
      linear (VTensor x) = inr (VTensor y) ->
      forward (VTuple (VTensor x :: hidden)) = pack (VTensor y) [size0 y] /\
      forward (VTensor x) = pack (VTensor y) [size0 y]) /\
  (forall first hidden hidden',
      forward (VTuple (first :: hidden))
      = forward (VTuple (first :: hidden'))) /\
  forward (VTuple []) = inl IndexError.
Proof.
  cbv zeta. unfold linear_forward, RNNWrapper_forward.
  split; [|split; [|split]].
  - intros data bs hidden. unfold PackedSequenceWrapper_forward.
    destruct (linear data); reflexivity.
  - intros x hidden y Hy. unfold PackedSequenceWrapper_forward.
    rewrite Hy. split; reflexivity.
  - reflexivity.
  - reflexivity.
Qed.

End WrapperFacts.

(** ** The layers of the model *)

Module ModelFacts.
Import Model.

Section Children.
Context {conv_layer : Type}.
Implicit Types (m : children conv_layer) (l : layer conv_layer).

Lemma get_add_same name l m : get_module name (add_module name l m) = Some l.
Proof.
  induction m as [|[n x] m IH]; simpl.
  - rewrite String.eqb_refl. reflexivity.
  - destruct (String.eqb n name) eqn:He; simpl; rewrite He; auto.
Qed.

Lemma get_add_other name name' l m :
  name <> name' -> get_module name' (add_module name l m) = get_module name' m.
Proof.
  intros Hne. induction m as [|[n x] m IH]; simpl.
  - destruct (String.eqb_spec name name'); [contradiction|reflexivity].
  - destruct (String.eqb_spec n name) as [->|Hn]; simpl.
    + destruct (String.eqb_spec name name'); [contradiction|reflexivity].
    + rewrite IH. reflexivity.
Qed.

Lemma add_module_fresh name l m :
  ~ In name (map fst m) -> add_module name l m = m ++ [(name, l)].
Proof.
  induction m as [|[n x] m IH]; simpl; intros Hf; [reflexivity|].
  destruct (String.eqb_spec n name) as [->|Hn]; [tauto|].
  rewrite IH; [reflexivity|tauto].
Qed.

Lemma add_module_names name l m :
  map fst (add_module name l m)
  = if existsb (String.eqb name) (map fst m) then map fst m
    else map fst m ++ [name].
Proof.
  induction m as [|[n x] m IH]; simpl; [reflexivity|].
  rewrite (String.eqb_sym name n).
  destruct (String.eqb_spec n name) as [->|Hn]; simpl; [reflexivity|].
  rewrite IH. destruct (existsb _ _); reflexivity.
Qed.

Lemma add_module_keeps_prefix name l m :
  exists tail, map fst (add_module name l m) = map fst m ++ tail.
Proof.
  rewrite add_module_names. destruct (existsb _ _).
  - exists []. rewrite app_nil_r. reflexivity.
  - eexists. reflexivity.
Qed.

(** X12. [build_model] for any convolutional model: each of the names
    [adap_pool], [collapse], [blstm] and [linear] names the layer the
    script builds, with the BLSTM reading [512 * adaptive_pool_height]
    features and the linear layer reading twice the hidden size; the
    other children keep their layers and all of the convolutional
    model's names keep their places at the front.  When the
    convolutional model uses none of the four names, the model is its
    children followed by the four layers in that order. *)
Theorem build_model_children
    (conv : children conv_layer)
    (num_outputs adaptive_pool_height lstm_hidden_size lstm_num_layers : Z) :
  let m := build_model conv num_outputs adaptive_pool_height
                       lstm_hidden_size lstm_num_layers in
  let four := [("adap_pool", AdaptiveAvgPool2d adaptive_pool_height None);
               ("collapse", ImageToSequence true);
               ("blstm", LSTM (512 * adaptive_pool_height) lstm_hidden_size
                              lstm_num_layers
                              (S754_finite false 4503599627370496 (-53)) true);
               ("linear", WrappedLinear (2 * lstm_hidden_size) num_outputs)] in
  (forall name l, In (name, l) four -> get_module name m = Some l) /\
  (forall name, ~ In name (map fst four) ->
                get_module name m = get_module name conv) /\
  (exists tail, map fst m = map fst conv ++ tail) /\
  ((forall name, In name (map fst four) -> ~ In name (map fst conv)) ->
   m = conv ++ four).
Proof.
  cbv zeta. unfold build_model. split; [|split; [|split]].
  - intros name l Hin. simpl in Hin.
    destruct Hin as [H|[H|[H|[H|[]]]]]; injection H as <- <-.
    + rewrite !get_add_other by discriminate. apply get_add_same.
    + rewrite !get_add_other by discriminate. apply get_add_same.
    + rewrite !get_add_other by discriminate. apply get_add_same.
    + apply get_add_same.
  - intros name Hn. simpl in Hn.
    rewrite !get_add_other; [reflexivity|..]; intros <-; tauto.
  - set (m1 := add_module "adap_pool" _ conv).
    set (m2 := add_module "collapse" _ m1).
    set (m3 := add_module "blstm" _ m2).
    destruct (add_module_keeps_prefix "adap_pool"
                (AdaptiveAvgPool2d adaptive_pool_height None) conv)
      as [t1 H1].
    destruct (add_module_keeps_prefix "collapse" (ImageToSequence true) m1)
      as [t2 H2].
    destruct (add_module_keeps_prefix "blstm"
                (LSTM (512 * adaptive_pool_height) lstm_hidden_size
                      lstm_num_layers
                      (S754_finite false 4503599627370496 (-53)) true) m2)
      as [t3 H3].
    destruct (add_module_keeps_prefix "linear"
                (WrappedLinear (2 * lstm_hidden_size) num_outputs) m3)
      as [t4 H4].
    exists (t1 ++ t2 ++ t3 ++ t4).
    subst m3 m2 m1. rewrite H4, H3, H2, H1.
    rewrite <- !app_assoc. reflexivity.
  - intros Hfresh.
    assert (forall name, In name ["adap_pool"; "collapse"; "blstm"; "linear"]
                         -> ~ In name (map fst conv)) as Hf by exact Hfresh.
    rewrite (add_module_fresh "adap_pool"); [|apply Hf; simpl; auto].
    rewrite (add_module_fresh "collapse").
    2:{ rewrite map_app, in_app_iff. intros [H|H].
        - revert H. apply Hf. simpl. auto.
        - simpl in H. destruct H as [H|[]]. discriminate. }
    rewrite (add_module_fresh "blstm").
    2:{ rewrite !map_app, !in_app_iff. intros [[H|H]|H].
        - revert H. apply Hf. simpl. auto.
        - simpl in H. destruct H as [H|[]]. discriminate.
        - simpl in H. destruct H as [H|[]]. discriminate. }
    rewrite (add_module_fresh "linear").
    2:{ rewrite !map_app, !in_app_iff. intros [[[H|H]|H]|H].
        - revert H. apply Hf. simpl. auto.
        - simpl in H. destruct H as [H|[]]. discriminate.
        - simpl in H. destruct H as [H|[]]. discriminate.
        - simpl in H. destruct H as [H|[]]. discriminate. }
    rewrite <- !app_assoc. reflexivity.
Qed.

End Children.

End ModelFacts.

(** ** More concrete runs *)

Module MoreRuns.
Import Triggers Examples MoreExamples PyFloat.

#[local] Existing Instance flat_os.
#[local] Existing Instance dict_torch.

(** A run of the hook leaves the old checkpoint file alone. *)
Lemma hook_touches_only_its_file_run :
  exists h w,
    observe_all (T := dict_torch)
      (mkHook 0%nat inf "best.ckpt") three_epochs world_with_old_checkpoint
    = (inr h, w)
    /\ files w !! "old.ckpt" = Some (net 7).
Proof.
  destruct (hook_touches_only_its_file (T := dict_torch)
              (mkHook 0%nat inf "best.ckpt") three_epochs
              world_with_old_checkpoint)
    as (h & w & Ha & _ & Hf & _).
  exists h, w. split; [exact Ha|].
  rewrite (Hf "old.ckpt"); [reflexivity|discriminate].
Defined.

(** Building the hook creates the missing directory [ckpt]; building
    it again creates nothing. *)
Lemma init_makes_directory_once_run :
  let w' := mkWorld (meters empty_world) (files empty_world)
                    ({["ckpt"]} ∪ dirs empty_world)
                    (trace empty_world ++ [EvMakedirs "ckpt"]) in
  __init__ (OS := ckpt_os) 0%nat "ckpt/best" empty_world
  = (inr (mkHook 0%nat inf "ckpt/best"), w')
  /\ path_exists "ckpt" w' = true
  /\ __init__ (OS := ckpt_os) 1%nat "ckpt/best" w'
     = (inr (mkHook 1%nat inf "ckpt/best"), w').
Proof.
  cbv zeta.
  assert (__init__ (OS := ckpt_os) 0%nat "ckpt/best" empty_world
          = (inr (mkHook 0%nat inf "ckpt/best"),
             mkWorld (meters empty_world) (files empty_world)
               ({["ckpt"]} ∪ dirs empty_world)
               (trace empty_world ++ [EvMakedirs "ckpt"]))) as Hinit
      by reflexivity.
  destruct (init_makes_directory_once (OS := ckpt_os) 0%nat 1%nat
              "ckpt/best" empty_world _ _ Hinit)
    as (_ & _ & _ & _ & _ & Hex & _ & Hagain).
  split; [exact Hinit|]. split; [apply Hex; reflexivity|exact Hagain].
Defined.

(** Called twice on a meter showing 0.2, the hook writes once. *)
Lemma second_call_same_value_writes_nothing_run :
  exists h1 w1,
    __call__ (T := dict_torch)
      (mkHook 0%nat inf "best.ckpt") (CTrainer (trainer_at 1))
      (world_reading f0_20) = (inr h1, w1)
    /\ __call__ h1 (CTrainer (trainer_at 2)) (world_reading f0_20)
       = (inr h1, emit (EvReadMeter 0%nat) (world_reading f0_20)).
Proof.
  destruct (second_call_same_value_writes_nothing
              (T := dict_torch)
              (mkHook 0%nat inf "best.ckpt") (trainer_at 1) (trainer_at 2)
              (world_reading f0_20))
    as (h1 & w1 & Hc & Hsecond).
  exists h1, w1. split; [exact Hc|].
  destruct (Hsecond (world_reading f0_20) eq_refl) as [Hc2 _]. exact Hc2.
Defined.

(** The epochs 0.5, 0.2, 0.3 in two orders give equal records. *)
Lemma record_independent_of_order_run :
  exists h w h' w',
    observe_all (T := dict_torch)
      (mkHook 0%nat inf "best.ckpt") three_epochs empty_world = (inr h, w)
    /\ observe_all (mkHook 0%nat inf "best.ckpt") three_epochs_shuffled
         empty_world = (inr h', w')
    /\ SFeqb (_lowest h) (_lowest h') = true.
Proof.
  apply (record_independent_of_order (T := dict_torch)
           (mkHook 0%nat inf "best.ckpt") (mkHook 0%nat inf "best.ckpt")
           three_epochs three_epochs_shuffled empty_world empty_world
           eq_refl eq_refl).
  - exact (Permutation_sym (Permutation_cons_append [f0_50; f0_20] f0_30)).
  - repeat constructor.
Defined.

(** The NaN epoch between 0.5 and 0.2 changes nothing. *)
Lemma nan_epochs_are_ignored_run :
  exists h w w',
    observe_all (T := dict_torch)
      (mkHook 0%nat inf "best.ckpt") epochs_with_nan empty_world = (inr h, w)
    /\ observe_all (mkHook 0%nat inf "best.ckpt")
         (List.filter (fun e => negb (is_nan (snd e))) epochs_with_nan)
         empty_world = (inr h, w')
    /\ same_io w w'.
Proof.
  apply (nan_epochs_are_ignored (T := dict_torch)
           (mkHook 0%nat inf "best.ckpt") epochs_with_nan
           empty_world empty_world).
  repeat split.
Defined.

(** Loading from a path that names no file. *)
Lemma load_checkpoint_only_reads_run :
  load_checkpoint_step (T := dict_torch) (args_loading "missing.ckpt")
                       (net 0) (sgd 0) empty_world
  = (inl IOError, emit (EvLogLoading "missing.ckpt") empty_world).
Proof.
  destruct (load_checkpoint_only_reads (T := dict_torch)
              (args_loading "missing.ckpt") (net 0) (sgd 0) empty_world)
    as (_ & _ & Hmissing).
  apply (Hmissing "missing.ckpt"); reflexivity.
Defined.

(** After 0.5, 0.2, 0.3 the best checkpoint loads back the states of
    one of the three epochs. *)
Lemma resume_from_best_checkpoint_run :
  exists h w t m1 o1 w',
    observe_all (T := dict_torch)
      (mkHook 0%nat inf "best.ckpt") three_epochs empty_world = (inr h, w)
    /\ load_checkpoint_step (args_loading "best.ckpt") (net 0) (sgd 0) w
       = (inr (m1, o1), w')
    /\ state_dict m1 = state_dict (model t)
    /\ optim_state_dict o1 = optim_state_dict (optimizer_of t).
Proof.
  destruct (resume_from_best_checkpoint (OS := flat_os) (T := dict_torch)
              (L := Runs.dict_torch_laws)
              0%nat "best.ckpt" empty_world three_epochs
              (args_loading "best.ckpt") (net 0) (sgd 0)
              (Exists_cons_hd (fun v => lt v inf = true) f0_50
                 [f0_20; f0_30] (eq_refl true))
              eq_refl eq_refl)
    as (h0 & w0 & h & w & pre & t & v & post
        & Hi & Ha & Hsplit & _ & _ & _ & _ & Hload).
  vm_compute in Hi. injection Hi as <- <-.
  assert (In (t, v) three_epochs) as Hin
      by (rewrite Hsplit; apply in_elt).
  exists h, w, t, (model t), (optimizer_of t), (loading_world "best.ckpt" w).
  split; [exact Ha|].
  destruct Hin as [H|[H|[H|[]]]]; injection H as <- <-;
    destruct (Hload _ _ eq_refl eq_refl) as (H1 & H2 & H3);
    repeat split; assumption.
Defined.

(** The save to [model.ckpt] leaves [model.ckpt-valid-lowest-cer] as the
    run left it. *)
Lemma final_save_keeps_best_checkpoint_run :
  exists h w0,
    __init__ valid_cer "model.ckpt-valid-lowest-cer"
             empty_world = (inr h, w0) /\
    forall t' w1,
      engine_run (Engine := scripted_engine three_epochs)
        (Any (early_stop_triggers (args_saving_to 2 "model.ckpt")))
        [h] (trainer_at 0) w0 = (inr t', w1) ->
      exists w2,
        train (E := scripted_engine three_epochs)
              (args_saving_to 2 "model.ckpt") (trainer_at 0) empty_world
        = (inr t', w2) /\
        files w2 !! _filename h = files w1 !! _filename h /\
        forall p, p <> "model.ckpt" -> files w2 !! p = files w1 !! p.
Proof.
  destruct (final_save_keeps_best_checkpoint
              (OS := flat_os) (T := dict_torch)
              (E := scripted_engine three_epochs)
              (args_saving_to 2 "model.ckpt") (trainer_at 0) empty_world)
    as [_ Hkeep].
  apply Hkeep; [reflexivity|discriminate].
Defined.

(** The output layer on a BLSTM output of three frames. *)
Lemma linear_keeps_batch_sizes_run :
  Wrappers.linear_forward (fun t : list Z => Z.of_nat (length t)) true
    pack_one double
    (Wrappers.VTuple [Wrappers.VTensor [1; 2; 3]%Z; Wrappers.VTuple []])
  = pack_one (Wrappers.VTensor [2; 4; 6]%Z) [3%Z].
Proof.
  destruct (WrapperFacts.linear_keeps_batch_sizes
              (fun t : list Z => Z.of_nat (length t)) true pack_one double)
    as (_ & Htensor & _).
  destruct (Htensor [1; 2; 3]%Z [Wrappers.VTuple []] [2; 4; 6]%Z eq_refl)
    as [Htuple _].
  exact Htuple.
Defined.

(** A convolutional model of one layer gets the four layers appended. *)
Lemma build_model_children_run :
  Model.build_model [("conv1", Model.ConvLayer tt)] 80 16 128 1
  = [("conv1", Model.ConvLayer tt);
     ("adap_pool", Model.AdaptiveAvgPool2d 16 None);
     ("collapse", Model.ImageToSequence true);
     ("blstm", Model.LSTM 8192 128 1
                 (S754_finite false 4503599627370496 (-53)) true);
     ("linear", Model.WrappedLinear 256 80)].
Proof.
  destruct (ModelFacts.build_model_children
              [("conv1", Model.ConvLayer tt)] 80 16 128 1)
    as (_ & _ & _ & Hfresh).
  apply Hfresh. intros name Hin [Hc|[]]. subst name.
  simpl in Hin. destruct Hin as [H|[H|[H|[H|[]]]]]; discriminate H.
Defined.

End MoreRuns.
